(** * The on-call incident environment (src/src/new_entry.py)

    A shallow embedding of the [OnCallEnvironment] durable object: its
    session state, the six actions dispatched by [on_fetch], the tool
    dispatcher with the log-query gate, and the reward computed by
    [submit_diagnosis].

    Modelling conventions.
    - Python values that travel through a request (the parsed JSON body,
      tool arguments, tool results) are terms of [value].  A [dict] is an
      association list in insertion order, looked up by its first binding.
      A request holds JSON values only; [VObject] stands for an object
      JSON cannot hold, which reaches the program only as the column of
      a row (the buffer of a BLOB column).
    - Python [int] is [Z]; Python [float] is the binary64 type [float] of
      the kernel, so the reward arithmetic is the arithmetic CPython runs.
    - Text is [string], read as ASCII text: [lower], [upper] and [strip]
      act on the ASCII letters and the ASCII white space of [str.isspace]
      and leave every other character alone.  A property that depends
      on the case or the trimming of a text the caller chooses is stated
      for ASCII text ([is_ascii]).
    - A method that can raise returns an [outcome]; a method that reads or
      writes [self] or the SQL storage runs in the monad [M], in which a
      raised exception keeps the mutations made before it, as in Python.
    - [Response(json.dumps(x), status=n)] is the pair of [x] and [n]: the
      body is kept as the value handed to [json.dumps].  Where [x] can
      hold the column of a row, [json.dumps] can raise; that is [respond]. *)

From Stdlib Require Import ZArith List String Ascii Bool Lia Floats DecimalString.
Import ListNotations.

#[local] Set Warnings "-inexact-float,-register-all".
#[local] Open Scope string_scope.
#[local] Open Scope Z_scope.

(** ** Python values and built-ins *)

Module Py.

Inductive value : Type :=
| VNone
| VBool (b : bool)
| VInt (z : Z)
| VFloat (f : float)
| VStr (s : string)
| VList (l : list value)
| VDict (d : list (string * value))
| VObject (type : string) (truth : bool).

Inductive exc_class : Type :=
| AttributeError
| TypeError
| OverflowError
| HostError.

Record exn : Type := Exn { exn_class : exc_class; exn_str : string }.

Inductive outcome (A : Type) : Type :=
| Ret (a : A)
| Raise (e : exn).

Arguments Ret {A} a.
Arguments Raise {A} e.

Definition obind {A B : Type} (c : outcome A) (k : A -> outcome B) : outcome B :=
  match c with
  | Ret a => k a
  | Raise e => Raise e
  end.

(** [type(v).__name__] *)
Definition type_name (v : value) : string :=
  match v with
  | VNone => "NoneType"
  | VBool _ => "bool"
  | VInt _ => "int"
  | VFloat _ => "float"
  | VStr _ => "str"
  | VList _ => "list"
  | VDict _ => "dict"
  | VObject type _ => type
  end.

(** The exception of a failed attribute lookup [v.attr]. *)
Definition no_attribute (v : value) (attr : string) : exn :=
  Exn AttributeError
      ("'" ++ type_name v ++ "' object has no attribute '" ++ attr ++ "'").

(** [bool(v)] *)
Definition truthy (v : value) : bool :=
  match v with
  | VNone => false
  | VBool b => b
  | VInt z => negb (z =? 0)
  | VFloat f => negb (PrimFloat.eqb f 0%float)
  | VStr s => negb (String.eqb s "")
  | VList l => match l with [] => false | _ :: _ => true end
  | VDict d => match d with [] => false | _ :: _ => true end
  | VObject _ truth => truth
  end.

(** The type of the first object in [v] that [json.dumps] cannot
    serialize, if there is one. *)
Fixpoint unserializable (v : value) : option string :=
  match v with
  | VObject type _ => Some type
  | VList l =>
      (fix among (l : list value) : option string :=
         match l with
         | [] => None
         | x :: rest =>
             match unserializable x with
             | Some type => Some type
             | None => among rest
             end
         end) l
  | VDict d =>
      (fix among (d : list (string * value)) : option string :=
         match d with
         | [] => None
         | (_, x) :: rest =>
             match unserializable x with
             | Some type => Some type
             | None => among rest
             end
         end) d
  | _ => None
  end.

Fixpoint lookup (k : string) (d : list (string * value)) : option value :=
  match d with
  | [] => None
  | (k', v) :: d' => if String.eqb k k' then Some v else lookup k d'
  end.

(** [obj.get(key, default)] *)
Definition get (obj : value) (key : string) (default : value) : outcome value :=
  match obj with
  | VDict d => Ret (match lookup key d with Some v => v | None => default end)
  | _ => Raise (no_attribute obj "get")
  end.

(** [v == "literal"] *)
Definition eq_str (v : value) (lit : string) : bool :=
  match v with
  | VStr s => String.eqb s lit
  | _ => false
  end.

(** *** [str] methods *)

Definition is_upper (c : ascii) : bool :=
  let n := nat_of_ascii c in (65 <=? n)%nat && (n <=? 90)%nat.

Definition is_lower (c : ascii) : bool :=
  let n := nat_of_ascii c in (97 <=? n)%nat && (n <=? 122)%nat.

(** [str.isspace] on ASCII: TAB, LF, VT, FF, CR, FS, GS, RS, US, SPACE. *)
Definition isspace (c : ascii) : bool :=
  let n := nat_of_ascii c in
  ((9 <=? n)%nat && (n <=? 13)%nat) || ((28 <=? n)%nat && (n <=? 32)%nat).

Definition lower_char (c : ascii) : ascii :=
  if is_upper c then ascii_of_nat (nat_of_ascii c + 32) else c.

Definition upper_char (c : ascii) : ascii :=
  if is_lower c then ascii_of_nat (nat_of_ascii c - 32) else c.

Fixpoint str_map (f : ascii -> ascii) (s : string) : string :=
  match s with
  | EmptyString => EmptyString
  | String c t => String (f c) (str_map f t)
  end.

Definition lower : string -> string := str_map lower_char.
Definition upper : string -> string := str_map upper_char.

Fixpoint lstrip (s : string) : string :=
  match s with
  | EmptyString => EmptyString
  | String c t => if isspace c then lstrip t else s
  end.

Fixpoint rstrip (s : string) : string :=
  match s with
  | EmptyString => EmptyString
  | String c t =>
      match rstrip t with
      | EmptyString => if isspace c then EmptyString else String c EmptyString
      | r => String c r
      end
  end.

Definition strip (s : string) : string := rstrip (lstrip s).

Definition startswith (s p : string) : bool := String.prefix p s.

(** [needle in hay] on two strings *)
Fixpoint str_in (needle hay : string) : bool :=
  String.prefix needle hay
  || match hay with
     | EmptyString => false
     | String _ t => str_in needle t
     end.

(** [s.replace(old, new)]: [skip] counts the characters of a matched
    occurrence still to be dropped. *)
Fixpoint replace_from (old new s : string) (skip : nat) : string :=
  match s with
  | EmptyString => EmptyString
  | String c t =>
      match skip with
      | S k => replace_from old new t k
      | O =>
          if String.prefix old s
          then new ++ replace_from old new t (String.length old - 1)
          else String c (replace_from old new t O)
      end
  end.

Fixpoint intersperse (new s : string) : string :=
  match s with
  | EmptyString => new
  | String c t => new ++ String c (intersperse new t)
  end.

Definition replace (s old new : string) : string :=
  match old with
  | EmptyString => intersperse new s
  | String _ _ => replace_from old new s O
  end.

(** A [str] method called on an arbitrary value: [v.lower()],
    [v.replace(old, new)]. *)
Definition call_str (name : string) (f : string -> string) (v : value)
  : outcome string :=
  match v with
  | VStr s => Ret (f s)
  | _ => Raise (no_attribute v name)
  end.

(** *** Numbers *)

(** [float(z)]: round to nearest even, [OverflowError] beyond binary64. *)
Definition float_of_int (z : Z) : outcome float :=
  let f := SF2Prim (binary_normalize prec emax z 0 false) in
  if PrimFloat.is_infinity f
  then Raise (Exn OverflowError "int too large to convert to float")
  else Ret f.

(** [max(a, b)] on floats: the first argument unless the second is greater. *)
Definition py_max (a b : float) : float :=
  if PrimFloat.ltb a b then b else a.

(** [str(n)] of an [int], used by f-strings. *)
Definition str_of_int (z : Z) : string :=
  match z with
  | Z0 => "0"
  | Zpos p => NilEmpty.string_of_uint (Pos.to_uint p)
  | Zneg p => "-" ++ NilEmpty.string_of_uint (Pos.to_uint p)
  end.

End Py.

(** ** The environment *)

Module OnCallEnvironment.

Import Py.

(** *** State and exceptions

    [stx S A] is a computation over a mutable state [S] that returns an
    [A] or raises; the state it leaves is kept in both cases. *)

Definition stx (S A : Type) : Type := S -> outcome A * S.

Definition ret {S A : Type} (a : A) : stx S A := fun s => (Ret a, s).

Definition raise {S A : Type} (e : exn) : stx S A := fun s => (Raise e, s).

Definition bind {S A B : Type} (c : stx S A) (k : A -> stx S B) : stx S B :=
  fun s =>
    match c s with
    | (Ret a, s') => k a s'
    | (Raise e, s') => (Raise e, s')
    end.

(** [try: c except Exception as e: h e] *)
Definition try_except {S A : Type} (c : stx S A) (h : exn -> stx S A) : stx S A :=
  fun s =>
    match c s with
    | (Ret a, s') => (Ret a, s')
    | (Raise e, s') => h e s'
    end.

Definition lift {S A : Type} (c : outcome A) : stx S A := fun s => (c, s).

Definition reads {S A : Type} (f : S -> A) : stx S A := fun s => (Ret (f s), s).

Definition modify {S : Type} (f : S -> S) : stx S unit := fun s => (Ret tt, f s).

Declare Scope stx_scope.
Delimit Scope stx_scope with stx.
Notation "x <- c ;; k" := (bind c (fun x => k))
  (at level 61, c at next level, right associativity) : stx_scope.
Notation "c ;;; k" := (bind c (fun _ => k))
  (at level 61, right associativity) : stx_scope.
#[local] Open Scope stx_scope.

(** [[f(x) for x in l]] with an [f] that may raise. *)
Fixpoint for_each {S A B : Type} (f : A -> stx S B) (l : list A) : stx S (list B) :=
  match l with
  | [] => ret []
  | x :: t => y <- f x ;; ys <- for_each f t ;; ret (y :: ys)
  end.

(** *** The host runtime

    What the class takes from the Workers runtime and from the [json]
    module: the SQL storage of the durable object, the rows its cursors
    yield, and the JSON codec. *)

Record Host : Type := {
  Store : Type;
  Row : Type;
  (** [self.ctx.storage.sql.exec(statement, *bindings)] *)
  sql_exec : string -> list value -> stx Store unit;
  (** [self.ctx.storage.sql.exec(query).all()] *)
  sql_exec_all : string -> stx Store (list Row);
  (** [row.<column>] *)
  row_attr : Row -> string -> outcome value;
  (** [json.loads(v)] *)
  json_loads : value -> outcome value;
  (** [json.dumps(v)] and [json.dumps(v, indent=2)] *)
  json_dumps : value -> string;
  json_dumps_indent2 : value -> string;
  (** [str(v)] of a value that is not a [str] *)
  str_of : value -> string
}.

(** *** Incident data *)

Record DependencyFact : Type := {
  dep_name : string;
  dep_status : string;
  dep_response_time : string
}.

Record Message : Type := {
  msg_user : string;
  msg_content : string;
  msg_timestamp : string
}.

Record Deployment : Type := {
  dpl_service : string;
  dpl_status : string;
  dpl_timestamp : string
}.

Record LogRecord : Type := {
  log_timestamp : string;
  log_level : string;
  log_service : string;
  log_message : string;
  log_metadata : value
}.

Record Environment : Type := {
  dependencies : list DependencyFact;
  slack_messages : list Message;
  deployments : list Deployment;
  logs : list LogRecord
}.

Record Incident : Type := {
  alert : string;
  correct_diagnosis : string;
  environment : Environment
}.

Definition dependency_dict (d : DependencyFact) : value :=
  VDict [("name", VStr (dep_name d)); ("status", VStr (dep_status d));
         ("response_time", VStr (dep_response_time d))].

Definition message_dict (m : Message) : value :=
  VDict [("user", VStr (msg_user m)); ("content", VStr (msg_content m));
         ("timestamp", VStr (msg_timestamp m))].

Definition deployment_dict (d : Deployment) : value :=
  VDict [("service", VStr (dpl_service d)); ("status", VStr (dpl_status d));
         ("timestamp", VStr (dpl_timestamp d))].

Definition _generate_incident : Incident := {|
  alert := "High database response times detected. Users reporting slow page loads.";
  correct_diagnosis := "database connection pool exhausted";
  environment := {|
    dependencies := [
      {| dep_name := "postgres-primary"; dep_status := "degraded";
         dep_response_time := "5000ms" |};
      {| dep_name := "redis"; dep_status := "healthy";
         dep_response_time := "10ms" |} ];
    slack_messages := [
      {| msg_user := "alice"; msg_content := "Seeing timeouts on checkout";
         msg_timestamp := "10:30" |};
      {| msg_user := "bob"; msg_content := "DB connections maxed out";
         msg_timestamp := "10:32" |} ];
    deployments := [
      {| dpl_service := "web-app"; dpl_status := "success";
         dpl_timestamp := "09:00" |} ];
    logs := [
      {| log_timestamp := "2025-07-20T10:31:00Z"; log_level := "ERROR";
         log_service := "postgres"; log_message := "Connection pool exhausted";
         log_metadata :=
           VDict [("pool_size", VInt 20); ("active_connections", VInt 20)] |};
      {| log_timestamp := "2025-07-20T10:30:30Z"; log_level := "WARN";
         log_service := "postgres"; log_message := "High response time: 4500ms";
         log_metadata := VDict [("query", VStr "SELECT * FROM users")] |};
      {| log_timestamp := "2025-07-20T10:30:00Z"; log_level := "ERROR";
         log_service := "web-app";
         log_message := "Database timeout after 5000ms";
         log_metadata := VDict [("endpoint", VStr "/checkout")] |};
      {| log_timestamp := "2025-07-20T10:29:45Z"; log_level := "INFO";
         log_service := "postgres";
         log_message := "Connection pool at 95% capacity";
         log_metadata :=
           VDict [("pool_size", VInt 20); ("active_connections", VInt 19)] |};
      {| log_timestamp := "2025-07-20T10:29:00Z"; log_level := "WARN";
         log_service := "web-app"; log_message := "Slow query detected: 3200ms";
         log_metadata := VDict [("query_id", VStr "q123")] |} ]
  |}
|}.

(** *** Tool definitions and the default prompt *)

Definition tool_definition (name description : string)
    (properties : list (string * value)) (required : list string) : value :=
  VDict [("type", VStr "function");
         ("name", VStr name);
         ("description", VStr description);
         ("parameters",
          VDict ([("type", VStr "object"); ("properties", VDict properties)]
                 ++ match required with
                    | [] => []
                    | _ :: _ => [("required", VList (map VStr required))]
                    end))].

Definition string_property (name description : string) : string * value :=
  (name, VDict [("type", VStr "string"); ("description", VStr description)]).

Definition _get_tools_definitions : value :=
  VList [
    tool_definition "check_dependencies" "Check status of service dependencies"
      [string_property "query" "Optional: filter by service name"] [];
    tool_definition "check_slack"
      "Search recent Slack messages from team members"
      [string_property "query" "Optional: search term to filter messages"] [];
    tool_definition "check_deployments"
      "Check recent deployment status and history"
      [string_property "query" "Optional: filter by service name"] [];
    tool_definition "query_logs"
      "Execute SQL query on logs database. Table schema: logs(id INTEGER, timestamp TEXT, level TEXT, service TEXT, message TEXT, metadata TEXT)"
      [string_property "sql_query"
         "SQL SELECT query to execute against logs table. Use LIMIT to control result size."]
      ["sql_query"] ].

Definition nl : string := String (ascii_of_nat 10) EmptyString.
Definition dq : string := String (ascii_of_nat 34) EmptyString.

Definition unlines (ls : list string) : string := String.concat nl ls.

Definition _get_default_system_prompt : string :=
  unlines [
    "You are an expert on-call engineer responsible for diagnosing production incidents quickly and accurately.";
    "";
    "Your goal is to identify the root cause of incidents using the available tools with maximum efficiency.";
    "";
    "AVAILABLE TOOLS:";
    "- check_dependencies: Check status of service dependencies  ";
    "- check_slack: Search recent team Slack messages for context";
    "- check_deployments: Check recent deployment history";
    "- query_logs: Execute SQL queries on the observability logs database";
    "";
    "{TOOL_DEFINITIONS}";
    "";
    "CONSTRAINTS:";
    "- You have a maximum of 10 tool calls to make your diagnosis";
    "- You must submit a diagnosis before running out of tool calls";
    "- Be efficient - you get bonus rewards for correct diagnoses with fewer tool calls";
    "";
    "Your diagnosis should be concise and specific (e.g., " ++ dq
      ++ "database connection pool exhausted" ++ dq ++ ", " ++ dq
      ++ "memory leak in web service" ++ dq ++ ", " ++ dq
      ++ "network timeout to payment API" ++ dq ++ ").";
    "";
    "Remember: Accuracy is more important than speed, but efficiency is rewarded." ].

Definition create_logs_table : string :=
  unlines [
    "";
    "            CREATE TABLE IF NOT EXISTS logs (";
    "                id INTEGER PRIMARY KEY,";
    "                timestamp TEXT,";
    "                level TEXT,";
    "                service TEXT,";
    "                message TEXT,";
    "                metadata TEXT";
    "            )";
    "        " ].

Definition insert_log : string :=
  "INSERT INTO logs (timestamp, level, service, message, metadata) VALUES (?, ?, ?, ?, ?)".

(** *** Responses and the session object *)

Record Response : Type := MkResponse { body : value; status : Z }.

(** [Response(json.dumps(x))] *)
Definition ok (x : value) : Response := MkResponse x 200.

(** [Response(json.dumps(x))] for an [x] that can hold the column of a
    row: [json.dumps] raises [TypeError] on an object it cannot
    serialize. *)
Definition respond (x : value) : outcome Response :=
  match unserializable x with
  | None => Ret (ok x)
  | Some type =>
      Raise (Exn TypeError
               ("Object of type " ++ type ++ " is not JSON serializable"))
  end.

(** [Response(json.dumps({"error": msg}), status=400)] *)
Definition bad_request (msg : string) : Response :=
  MkResponse (VDict [("error", VStr msg)]) 400.

(** The attributes [__init__] assigns on [self]. *)
Record Session : Type := {
  tool_calls_made : Z;
  max_tool_calls : Z;
  completed : bool;
  incident_data : Incident;
  system_prompt : value
}.

Definition set_tool_calls_made (n : Z) (s : Session) : Session :=
  {| tool_calls_made := n; max_tool_calls := max_tool_calls s;
     completed := completed s; incident_data := incident_data s;
     system_prompt := system_prompt s |}.

Definition set_completed (b : bool) (s : Session) : Session :=
  {| tool_calls_made := tool_calls_made s; max_tool_calls := max_tool_calls s;
     completed := b; incident_data := incident_data s;
     system_prompt := system_prompt s |}.

Definition set_system_prompt (p : value) (s : Session) : Session :=
  {| tool_calls_made := tool_calls_made s; max_tool_calls := max_tool_calls s;
     completed := completed s; incident_data := incident_data s;
     system_prompt := p |}.

Section WithHost.

Variable H : Host.

(** The object and the SQL storage behind [self.ctx]. *)
Record State : Type := { self : Session; storage : Store H }.

Definition M : Type -> Type := stx State.

Definition attr {A : Type} (f : Session -> A) : M A :=
  reads (fun st => f (self st)).

Definition assign (f : Session -> Session) : M unit :=
  modify (fun st => {| self := f (self st); storage := storage st |}).

Definition on_storage {A : Type} (c : stx (Store H) A) : M A :=
  fun st =>
    let (r, db) := c (storage st) in
    (r, {| self := self st; storage := db |}).

(** *** Construction *)

Definition _init_db : stx (Store H) unit :=
  sql_exec H create_logs_table [].

Fixpoint _populate_logs (ls : list LogRecord) : stx (Store H) unit :=
  match ls with
  | [] => ret tt
  | log :: rest =>
      sql_exec H insert_log
        [VStr (log_timestamp log); VStr (log_level log);
         VStr (log_service log); VStr (log_message log);
         VStr (json_dumps H (log_metadata log))] ;;;
      _populate_logs rest
  end.

Definition __init__ : stx (Store H) Session :=
  _init_db ;;;
  let incident := _generate_incident in
  _populate_logs (logs (environment incident)) ;;;
  ret {| tool_calls_made := 0;
         max_tool_calls := 10;
         completed := false;
         incident_data := incident;
         system_prompt := VStr _get_default_system_prompt |}.

(** *** Tools *)

(** [json.loads(v)] *)
Definition loads (v : value) : outcome value := json_loads H v.

(** The dict appended to [logs] for one row of the cursor. *)
Definition log_entry (row : Row H) : M value :=
  timestamp <- lift (row_attr H row "timestamp") ;;
  level <- lift (row_attr H row "level") ;;
  service <- lift (row_attr H row "service") ;;
  message <- lift (row_attr H row "message") ;;
  has_metadata <- lift (row_attr H row "metadata") ;;
  metadata <- (if truthy has_metadata
               then m <- lift (row_attr H row "metadata") ;; lift (loads m)
               else ret (VDict [])) ;;
  ret (VDict [("timestamp", timestamp); ("level", level);
              ("service", service); ("message", message);
              ("metadata", metadata)]).

Definition len (l : list value) : Z := Z.of_nat (List.length l).

Definition truncation_warning (total_found : Z) : string :=
  "Query returned " ++ str_of_int total_found
  ++ " results, showing first 50. Consider adding additional filters (WHERE, LIMIT) to narrow results.".

Definition error_dict (msg : string) : value := VDict [("error", VStr msg)].

(** The statements under [try:] once [sql_query.strip()] has succeeded on
    the text [q] of [sql_query]. *)
Definition guarded_query (sql_query : value) (q : string) : M value :=
  if negb (startswith (upper (strip q)) "SELECT")
  then ret (error_dict "Only SELECT queries are allowed")
  else
    results <- on_storage (sql_exec_all H q) ;;
    logs <- for_each log_entry results ;;
    let total_found := len logs in
    if len logs >? 50
    then ret (VDict [("logs", VList (firstn 50 logs));
                     ("total_found", VInt total_found);
                     ("query_executed", sql_query);
                     ("warning", VStr (truncation_warning total_found))])
    else ret (VDict [("logs", VList logs);
                     ("total_found", VInt (len logs));
                     ("query_executed", sql_query)]).

Definition _query_logs_db (sql_query : value) : M value :=
  if negb (truthy sql_query) then ret (error_dict "No SQL query provided")
  else
    try_except
      (match sql_query with
       | VStr q => guarded_query sql_query q
       | _ => raise (no_attribute sql_query "strip")
       end)
      (fun e => ret (error_dict ("SQL execution failed: " ++ exn_str e))).

(** [[d for d in items if query.lower() in field(d).lower()]] *)
Fixpoint matching {A : Type} (query : value) (field : A -> string)
    (items : list A) : outcome (list A) :=
  match items with
  | [] => Ret []
  | d :: rest =>
      obind (call_str "lower" lower query) (fun q =>
      let keep := str_in q (lower (field d)) in
      obind (matching query field rest) (fun kept =>
      Ret (if keep then d :: kept else kept)))
  end.

(** [f"{v}"] *)
Definition format (v : value) : string :=
  match v with
  | VStr s => s
  | _ => str_of H v
  end.

Definition _execute_tool (tool_name args : value) : M value :=
  env_state <- attr (fun s => environment (incident_data s)) ;;
  if eq_str tool_name "check_dependencies" then
    query <- lift (get args "query" (VStr "")) ;;
    let deps := dependencies env_state in
    deps <- (if truthy query then lift (matching query dep_name deps)
             else ret deps) ;;
    ret (VDict [("dependencies", VList (map dependency_dict deps))])
  else if eq_str tool_name "check_slack" then
    query <- lift (get args "query" (VStr "")) ;;
    let messages := slack_messages env_state in
    messages <- (if truthy query
                 then lift (matching query msg_content messages)
                 else ret messages) ;;
    ret (VDict [("messages", VList (map message_dict messages))])
  else if eq_str tool_name "check_deployments" then
    query <- lift (get args "query" (VStr "")) ;;
    let deployments := deployments env_state in
    deployments <- (if truthy query
                    then lift (matching query dpl_service deployments)
                    else ret deployments) ;;
    ret (VDict [("deployments", VList (map deployment_dict deployments))])
  else if eq_str tool_name "query_logs" then
    sql_query <- lift (get args "sql_query" (VStr "")) ;;
    _query_logs_db sql_query
  else
    ret (error_dict ("Unknown tool: " ++ format tool_name)).

(** *** Actions *)

Definition get_system_prompt : M Response :=
  let tools := _get_tools_definitions in
  let tool_definitions := json_dumps_indent2 H tools in
  prompt <- attr system_prompt ;;
  formatted_prompt <-
    lift (call_str "replace"
            (fun p => replace p "{TOOL_DEFINITIONS}" tool_definitions) prompt) ;;
  ret (ok (VDict [("system_prompt", VStr formatted_prompt)])).

Definition update_system_prompt (new_prompt : value) : M Response :=
  if truthy new_prompt then
    assign (set_system_prompt new_prompt) ;;;
    ret (ok (VDict [("status", VStr "System prompt udpated")]))
  else ret (bad_request "No system prompt provided").

Definition get_initial_state : M Response :=
  incident <- attr incident_data ;;
  limit <- attr max_tool_calls ;;
  made <- attr tool_calls_made ;;
  ret (ok (VDict [("incident_alert", VStr (alert incident));
                  ("max_tool_calls", VInt limit);
                  ("calls_remaining", VInt (limit - made))])).

Definition get_tools : M Response :=
  ret (ok (VDict [("tools", _get_tools_definitions)])).

Definition use_tool (data : value) : M Response :=
  done <- attr completed ;;
  if done then ret (bad_request "Environment completed")
  else
    made <- attr tool_calls_made ;;
    limit <- attr max_tool_calls ;;
    if made >=? limit then ret (bad_request "Max tool calls exceeded")
    else
      tool_call <- lift (get data "tool_call" (VDict [])) ;;
      tool_name <- lift (get tool_call "name" VNone) ;;
      tool_args <- lift (get tool_call "arguments" (VDict [])) ;;
      if negb (truthy tool_name) then ret (bad_request "Missing tool name")
      else
        assign (fun s => set_tool_calls_made (tool_calls_made s + 1) s) ;;;
        tool_response <- _execute_tool tool_name tool_args ;;
        limit <- attr max_tool_calls ;;
        made <- attr tool_calls_made ;;
        lift (respond (VDict [("tool_response", tool_response);
                              ("calls_remaining", VInt (limit - made));
                              ("call_number", VInt made)])).

Definition submit_diagnosis (diagnosis : value) : M Response :=
  done <- attr completed ;;
  if done then ret (bad_request "Already completed")
  else
    assign (set_completed true) ;;;
    given <- lift (call_str "lower" lower diagnosis) ;;
    expected <- attr (fun s => correct_diagnosis (incident_data s)) ;;
    let correct := String.eqb given (lower expected) in
    let primary_reward := (if correct then 2.0 else 0.0)%float in
    made <- attr tool_calls_made ;;
    efficiency_reward <-
      (if correct
       then calls <- lift (float_of_int (made - 1)) ;;
            ret (py_max 0.0 (1.0 - (0.15 * calls)))%float
       else ret 0.0%float) ;;
    let total_reward := (primary_reward + efficiency_reward)%float in
    ret (ok (VDict [("correct", VBool correct);
                    ("correct_diagnosis", VStr expected);
                    ("agent_diagnosis", diagnosis);
                    ("primary_reward", VFloat primary_reward);
                    ("efficiency_reward", VFloat efficiency_reward);
                    ("total_reward", VFloat total_reward);
                    ("tool_calls_used", VInt made);
                    ("completed", VBool true)])).

(** [on_fetch] of the durable object; [data] is [await request.json()].
    When no branch matches, the method falls off its end and returns
    [None]. *)
Definition on_fetch (data : value) : M (option Response) :=
  action <- lift (get data "action" VNone) ;;
  if eq_str action "get_initial_state" then
    r <- get_initial_state ;; ret (Some r)
  else if eq_str action "get_tools" then
    r <- get_tools ;; ret (Some r)
  else if eq_str action "get_system_prompt" then
    r <- get_system_prompt ;; ret (Some r)
  else if eq_str action "update_system_prompt" then
    new_prompt <- lift (get data "system_prompt" VNone) ;;
    r <- update_system_prompt new_prompt ;; ret (Some r)
  else if eq_str action "use_tool" then
    r <- use_tool data ;; ret (Some r)
  else if eq_str action "submit_diagnosis" then
    diagnosis <- lift (get data "diagnosis" VNone) ;;
    r <- submit_diagnosis diagnosis ;; ret (Some r)
  else ret None.

(** The runtime hands the requests addressed to one object to [on_fetch]
    one at a time; an exception ends the request, not the object. *)
Fixpoint serve (requests : list value) (st : State)
  : list (outcome (option Response)) * State :=
  match requests with
  | [] => ([], st)
  | data :: rest =>
      let (r, st1) := on_fetch data st in
      let (rs, st2) := serve rest st1 in
      (r :: rs, st2)
  end.

End WithHost.

Arguments self {H} _.
Arguments storage {H} _.
Arguments Build_State {H} _ _.

(** *** An in-memory host

    A small host to run the environment on: the storage is the list of
    rows inserted so far, a row is its list of columns, [SELECT * FROM
    logs] returns every row, the same followed by [; DELETE FROM logs]
    runs both statements (the cursor of the last one has no row), and
    any other query is a syntax error.  The codec is a stand-in that
    tells an empty object from any other. *)

Module MemoryHost.

Definition row : Type := list (string * value).

Definition store : Type := list row.

Definition exec (statement : string) (bindings : list value) : stx store unit :=
  fun db =>
    if String.eqb statement insert_log
    then
      match bindings with
      | [t; l; s; m; md] =>
          (Ret tt,
           (db ++ [[("timestamp", t); ("level", l); ("service", s);
                    ("message", m); ("metadata", md)]])%list)
      | _ => (Raise (Exn HostError "wrong number of bindings"), db)
      end
    else (Ret tt, db).

Definition exec_all (query : string) : stx store (list row) :=
  fun db =>
    if String.eqb query "SELECT * FROM logs" then (Ret db, db)
    else if String.eqb query "SELECT * FROM logs; DELETE FROM logs"
    then (Ret [], [])
    else (Raise (Exn HostError ("syntax error in: " ++ query)), db).

Definition column (r : row) (name : string) : outcome value :=
  match lookup name r with
  | Some v => Ret v
  | None => Raise (Exn AttributeError name)
  end.

Definition dumps (v : value) : string :=
  match v with
  | VDict [] => "{}"
  | _ => "{...}"
  end.

Definition loads_text (v : value) : outcome value :=
  match v with
  | VStr text =>
      if String.eqb text "{}" then Ret (VDict [])
      else if String.eqb text "{...}" then Ret (VDict [("...", VNone)])
      else Raise (Exn HostError "Expecting value")
  | _ =>
      Raise (Exn TypeError
               ("the JSON object must be str, bytes or bytearray, not "
                ++ type_name v))
  end.

Definition host : Host := {|
  Store := store;
  Row := row;
  sql_exec := exec;
  sql_exec_all := exec_all;
  row_attr := column;
  json_loads := loads_text;
  json_dumps := dumps;
  json_dumps_indent2 := dumps;
  str_of := type_name
|}.

(** The object [__init__] builds on an empty storage. *)
Definition fresh : State host :=
  match __init__ host [] with
  | (Ret s, db) => {| self := s; storage := db |}
  | (Raise _, db) =>
      {| self := {| tool_calls_made := 0; max_tool_calls := 10;
                    completed := false; incident_data := _generate_incident;
                    system_prompt := VNone |};
         storage := db |}
  end.

(** The fresh object after [n] counted calls. *)
Definition after_calls (n : Z) : State host :=
  {| self := set_tool_calls_made n (self fresh); storage := storage fresh |}.

(** One log row, and the fresh object on a storage of [n] copies of it. *)
Definition sample_row : row :=
  [("timestamp", VStr "2025-07-20T10:31:00Z"); ("level", VStr "ERROR");
   ("service", VStr "postgres"); ("message", VStr "Connection pool exhausted");
   ("metadata", VStr "{}")].

Definition with_rows (n : nat) : State host :=
  @Build_State host (self fresh) (repeat sample_row n).

(** The correct diagnosis of the fixed incident, in capitals. *)
Definition shouted : string := "DATABASE CONNECTION POOL EXHAUSTED".

(** The body of a [use_tool] request. *)
Definition tool_request (name arguments : value) : value :=
  VDict [("action", VStr "use_tool");
         ("tool_call", VDict [("name", name); ("arguments", arguments)])].

Definition diagnosis_request (diagnosis : value) : value :=
  VDict [("action", VStr "submit_diagnosis"); ("diagnosis", diagnosis)].

(** The fresh object on a storage whose row holds a BLOB as message. *)
Definition blob_row : row :=
  [("timestamp", VStr "2025-07-20T10:31:00Z"); ("level", VStr "ERROR");
   ("service", VStr "postgres"); ("message", VObject "bytes" true);
   ("metadata", VStr "{}")].

Definition with_blob_row : State host :=
  @Build_State host (self fresh) [blob_row].

(** The entry of [sample_row]. *)
Definition sample_entry : value :=
  VDict [("timestamp", VStr "2025-07-20T10:31:00Z"); ("level", VStr "ERROR");
         ("service", VStr "postgres");
         ("message", VStr "Connection pool exhausted");
         ("metadata", VDict [])].

(** The fresh object on a storage whose second row lacks its columns. *)
Definition broken_row : row := [("id", VInt 2)].

Definition with_broken_row : State host :=
  @Build_State host (self fresh) [sample_row; broken_row; sample_row].

End MemoryHost.

End OnCallEnvironment.
(** ** The scripted agent (src/test_scripts/test_agent.py)

    The client that turns the reply of a language model into a tool call
    and sends it to the environment. *)

Module TestAgent.

Import Py.

(** [s.split(sep)] for a separator of one character. *)
Fixpoint split (s : string) (sep : ascii) : list string :=
  match s with
  | EmptyString => [EmptyString]
  | String c t =>
      if Ascii.eqb c sep then EmptyString :: split t sep
      else
        match split t sep with
        | line :: rest => String c line :: rest
        | [] => [String c EmptyString]
        end
  end.

Definition newline : ascii := ascii_of_nat 10.

Definition tool_call (name : string) (arguments : list (string * value))
  : value :=
  VDict [("name", VStr name); ("arguments", VDict arguments)].

Definition error_logs_query : string :=
  "SELECT * FROM logs WHERE level = 'ERROR' ORDER BY timestamp DESC LIMIT 5".

(** The [for line in lines] loop of [parse_tool_call]: the call returned
    from inside the loop, if any. *)
Fixpoint first_tool (lines : list string) : option value :=
  match lines with
  | [] => None
  | line :: rest =>
      if str_in "check_dependencies" line
      then Some (tool_call "check_dependencies" [])
      else if str_in "check_slack" line
      then Some (tool_call "check_slack" [])
      else if str_in "check_deployments" line
      then Some (tool_call "check_deployments" [])
      else if str_in "query_logs" line
      then Some (tool_call "query_logs"
                   [("sql_query", VStr error_logs_query)])
      else first_tool rest
  end.

Definition parse_tool_call (llm_response : string) : value :=
  let lines := split (lower llm_response) newline in
  match first_tool lines with
  | Some call => call
  | None => tool_call "check_dependencies" []
  end.

(** The payload [send_request(agent_id, "use_tool", tool_call=call)]
    posts. *)
Definition use_tool_payload (call : value) : value :=
  VDict [("action", VStr "use_tool"); ("tool_call", call)].

End TestAgent.

(** ** Properties *)

Import Py OnCallEnvironment.
#[local] Open Scope stx_scope.

(** What a response says under a key of its body. *)
Definition field (key : string) (r : Response) : option value :=
  match body r with
  | VDict d => lookup key d
  | _ => None
  end.

(** The object after [self.tool_calls_made += 1]. *)
Definition counted {H : Host} (st : State H) : State H :=
  {| self := set_tool_calls_made (tool_calls_made (self st) + 1) (self st);
     storage := storage st |}.

(** The response [use_tool] builds from what the tool returned. *)
Definition tool_reply {H : Host} (r : outcome value * State H)
  : outcome Response * State H :=
  match r with
  | (Ret tool_response, st) =>
      (respond (VDict [("tool_response", tool_response);
                       ("calls_remaining",
                        VInt (max_tool_calls (self st)
                              - tool_calls_made (self st)));
                       ("call_number", VInt (tool_calls_made (self st)))]),
       st)
  | (Raise e, st) => (Raise e, st)
  end.

(** Case-insensitive equality, character by character: the two texts
    have the same length and at each position the same character or the
    two cases of one ASCII letter. *)
Definition same_letter (a b : ascii) : Prop :=
  a = b
  \/ (is_upper a = true /\ b = lower_char a)
  \/ (is_upper b = true /\ a = lower_char b).

Inductive same_ignoring_case : string -> string -> Prop :=
| same_empty : same_ignoring_case EmptyString EmptyString
| same_next (a b : ascii) (s t : string) :
    same_letter a b ->
    same_ignoring_case s t ->
    same_ignoring_case (String a s) (String b t).

(** The object after [self.completed = True]. *)
Definition closed {H : Host} (st : State H) : State H :=
  {| self := set_completed true (self st); storage := storage st |}.

(** The body of a [DiagnosisResult]. *)
Definition diagnosis_result (correct : bool) (expected : string)
    (agent : value) (primary efficiency total : float) (used : Z) : value :=
  VDict [("correct", VBool correct);
         ("correct_diagnosis", VStr expected);
         ("agent_diagnosis", agent);
         ("primary_reward", VFloat primary);
         ("efficiency_reward", VFloat efficiency);
         ("total_reward", VFloat total);
         ("tool_calls_used", VInt used);
         ("completed", VBool true)].

(** What a dict says under a key. *)
Definition entry (key : string) (v : value) : option value :=
  match v with
  | VDict d => lookup key d
  | _ => None
  end.




(** The three tools that filter a list of the incident by [query]. *)
Definition filters (tool_name : value) : bool :=
  eq_str tool_name "check_dependencies"
  || eq_str tool_name "check_slack"
  || eq_str tool_name "check_deployments".

(** A [query] the filters accept: a text, or a value that counts as no
    query at all. *)
Definition text_or_falsy (v : value) : bool :=
  match v with
  | VStr _ => true
  | _ => negb (truthy v)
  end.

(** One request changes the attributes of [self] in one of four ways. *)
Inductive session_step (s : Session) : Session -> Prop :=
| step_same : session_step s s
| step_prompt (p : value) : session_step s (set_system_prompt p s)
| step_count :
    completed s = false ->
    tool_calls_made s < max_tool_calls s ->
    session_step s (set_tool_calls_made (tool_calls_made s + 1) s)
| step_done :
    completed s = false ->
    session_step s (set_completed true s).

(** The ways a call of [use_tool] ends. *)
Inductive use_tool_result {H : Host} (st : State H)
  : outcome Response * State H -> Prop :=
| ended_completed :
    completed (self st) = true ->
    use_tool_result st (Ret (bad_request "Environment completed"), st)
| ended_budget :
    completed (self st) = false ->
    tool_calls_made (self st) >= max_tool_calls (self st) ->
    use_tool_result st (Ret (bad_request "Max tool calls exceeded"), st)
| ended_malformed (e : exn) :
    completed (self st) = false ->
    tool_calls_made (self st) < max_tool_calls (self st) ->
    use_tool_result st (Raise e, st)
| ended_missing :
    completed (self st) = false ->
    tool_calls_made (self st) < max_tool_calls (self st) ->
    use_tool_result st (Ret (bad_request "Missing tool name"), st)
| ended_executed (tool_name tool_args : value) :
    completed (self st) = false ->
    tool_calls_made (self st) < max_tool_calls (self st) ->
    truthy tool_name = true ->
    use_tool_result st
      (tool_reply (_execute_tool H tool_name tool_args (counted st))).

(** [r <- action ;; ret (Some r)]: what [on_fetch] returns for the
    response of an action. *)
Definition answered {S : Type} (x : outcome Response * S)
  : outcome (option Response) * S :=
  match x with
  | (Ret r, s) => (Ret (Some r), s)
  | (Raise e, s) => (Raise e, s)
  end.

(** The ways a call of [on_fetch] ends. *)
Inductive on_fetch_result {H : Host} (st : State H) (data : value)
  : outcome (option Response) * State H -> Prop :=
| fetched_malformed (e : exn) : on_fetch_result st data (Raise e, st)
| fetched_initial_state :
    on_fetch_result st data (answered (get_initial_state H st))
| fetched_tools : on_fetch_result st data (answered (get_tools H st))
| fetched_system_prompt :
    on_fetch_result st data (answered (get_system_prompt H st))
| fetched_update (new_prompt : value) :
    on_fetch_result st data (answered (update_system_prompt H new_prompt st))
| fetched_tool : on_fetch_result st data (answered (use_tool H data st))
| fetched_diagnosis (diagnosis : value) :
    get data "diagnosis" VNone = Ret diagnosis ->
    on_fetch_result st data (answered (submit_diagnosis H diagnosis st))
| fetched_unknown : on_fetch_result st data (Ret None, st).

Definition within_budget (s : Session) : Prop :=
  0 <= tool_calls_made s <= max_tool_calls s.

(** A response that carries a reward: the DiagnosisResult. *)
Definition rewarded (o : outcome (option Response)) : bool :=
  match o with
  | Ret (Some r) =>
      match field "total_reward" r with Some _ => true | None => false end
  | _ => false
  end.

(** Text of ASCII characters only: on such text [lower], [upper] and
    [strip] are [str.lower], [str.upper] and [str.strip]. *)
Definition is_ascii (s : string) : bool :=
  forallb (fun c => (nat_of_ascii c <? 128)%nat) (list_ascii_of_string s).

(** An incident whose filtered fields are ASCII text. *)
Definition plain_environment (env : Environment) : Prop :=
  (forall d, In d (dependencies env) -> is_ascii (dep_name d) = true)
  /\ (forall m, In m (slack_messages env) -> is_ascii (msg_content m) = true)
  /\ (forall d, In d (deployments env) -> is_ascii (dpl_service d) = true).

(** [e] is the entry of [row]: its timestamp, level, service and message
    columns as they are, and its metadata column decoded by [json.loads],
    or the empty dict when that column is falsy. *)
Definition entry_of_row {H : Host} (row : Row H) (e : value) : Prop :=
  exists timestamp level service message stored metadata : value,
    row_attr H row "timestamp" = Ret timestamp
    /\ row_attr H row "level" = Ret level
    /\ row_attr H row "service" = Ret service
    /\ row_attr H row "message" = Ret message
    /\ row_attr H row "metadata" = Ret stored
    /\ (if truthy stored then json_loads H stored = Ret metadata
        else metadata = VDict [])
    /\ e = VDict [("timestamp", timestamp); ("level", level);
                  ("service", service); ("message", message);
                  ("metadata", metadata)].

(** A response that carries the result of a tool. *)
Definition executed (o : outcome (option Response)) : bool :=
  match o with
  | Ret (Some r) =>
      match field "tool_response" r with Some _ => true | None => false end
  | _ => false
  end.

(** The efficiency reward of a correct diagnosis after [calls_made] tool
    calls: [max(0.0, 1.0 - (0.15 * (calls_made - 1)))]. *)
Definition efficiency_after (calls_made : Z) : outcome float :=
  obind (float_of_int (calls_made - 1))
        (fun calls => Ret (py_max 0.0 (1.0 - 0.15 * calls))%float).

(** [text] contains [q] when letter case is ignored. *)
Definition mentions (q text : string) : Prop :=
  exists pre post : string, lower text = pre ++ lower q ++ post.

(** The test of the log query: the trimmed text begins with SELECT in
    any letter case. *)
Definition passes_gate (q : string) : bool :=
  startswith (upper (strip q)) "SELECT".

Ltac unfold_stx :=
  unfold bind, ret, raise, lift, attr, reads, assign, modify, try_except,
    on_storage in *.

(** Case analysis on the outcome or the test a [match] waits for. *)
Ltac case_scrutinee :=
  match goal with
  | |- context [match ?c with _ => _ end] =>
      lazymatch type of c with
      | outcome _ => destruct c
      | bool => destruct c
      end
  end.

Lemma budget_cases (n : Z) :
  0 <= n <= 10 -> In n (map Z.of_nat (seq 0 11)).
Proof.
  intros B. rewrite <- (Z2Nat.id n) by lia. apply in_map, in_seq. lia.
Qed.

Ltac each_budget n B :=
  let I := fresh "I" in
  pose proof (budget_cases n B) as I; cbn in I;
  repeat (destruct I as [I | I]; [subst n |]); [.. | contradiction].

Section Facts.

Variable H : Host.

Implicit Types (st : State H) (data : value).


Lemma geb_false (a b : Z) : a < b -> (a >=? b) = false.
Proof. intros. rewrite Z.geb_leb. apply Z.leb_gt. lia. Qed.

Lemma geb_false_lt (a b : Z) : (a >=? b) = false -> a < b.
Proof. rewrite Z.geb_leb. apply Z.leb_gt. Qed.

(** **** Case folding *)

Lemma lower_char_not_upper (c : ascii) : is_upper (lower_char c) = false.
Proof.
  destruct c as [[] [] [] [] [] [] [] []]; vm_compute; reflexivity.
Qed.

Lemma lower_char_idem (c : ascii) : lower_char (lower_char c) = lower_char c.
Proof.
  unfold lower_char at 1. now rewrite lower_char_not_upper.
Qed.

Lemma lower_char_upper_inj (a b : ascii) :
  is_upper a = true -> is_upper b = true ->
  lower_char a = lower_char b -> a = b.
Proof.
  unfold lower_char. intros Ha Hb. rewrite Ha, Hb.
  unfold is_upper in Ha, Hb.
  apply andb_true_iff in Ha as [_ Ha]. apply andb_true_iff in Hb as [_ Hb].
  apply Nat.leb_le in Ha, Hb.
  intros E. apply (f_equal nat_of_ascii) in E.
  rewrite !nat_ascii_embedding in E by lia.
  rewrite <- (ascii_nat_embedding a), <- (ascii_nat_embedding b).
  f_equal. lia.
Qed.

Lemma lower_char_same (a b : ascii) :
  lower_char a = lower_char b <-> same_letter a b.
Proof.
  split.
  - intros E. destruct (is_upper a) eqn:Ha, (is_upper b) eqn:Hb.
    + left. now apply lower_char_upper_inj.
    + right. left. split; [exact Ha |].
      rewrite E. unfold lower_char. now rewrite Hb.
    + right. right. split; [exact Hb |].
      rewrite <- E. unfold lower_char. now rewrite Ha.
    + left. unfold lower_char in E. now rewrite Ha, Hb in E.
  - intros [-> | [[_ ->] | [_ ->]]];
      [reflexivity | now rewrite lower_char_idem | now rewrite lower_char_idem].
Qed.

Lemma lower_same (s t : string) :
  String.eqb (lower s) (lower t) = true <-> same_ignoring_case s t.
Proof.
  rewrite String.eqb_eq. split.
  - revert t. induction s as [|a s IH]; intros [|b t] E;
      try discriminate; [constructor |].
    cbn in E. injection E as Ec Es.
    constructor; [now apply lower_char_same | now apply IH].
  - induction 1 as [|a b s t Hab _ IH]; [reflexivity |].
    cbn. f_equal; [now apply lower_char_same | exact IH].
Qed.

(** **** What the tools leave untouched *)

Lemma log_entry_pure (row : Row H) st : snd (log_entry H row st) = st.
Proof.
  unfold log_entry. unfold_stx. cbn. repeat (case_scrutinee; cbn; trivial).
Qed.

Lemma for_each_log_entry_pure (rows : list (Row H)) st :
  snd (for_each (log_entry H) rows st) = st.
Proof.
  revert st. induction rows as [|row rows IH]; intros st; [reflexivity |].
  cbn. unfold bind at 1.
  pose proof (log_entry_pure row st) as E.
  destruct (log_entry H row st) as [[y|e] st1]; cbn in E; subst st1;
    [| reflexivity].
  unfold bind at 1. specialize (IH st).
  destruct (for_each (log_entry H) rows st) as [[ys|e] st1]; cbn in IH;
    subst st1; reflexivity.
Qed.

Lemma guarded_query_self (sql_query : value) (q : string) st :
  self (snd (guarded_query H sql_query q st)) = self st.
Proof.
  unfold guarded_query.
  destruct (negb (startswith (upper (strip q)) "SELECT")); [reflexivity |].
  unfold bind at 1. unfold on_storage.
  destruct (sql_exec_all H q (storage st)) as [[rows|e] db]; [| reflexivity].
  unfold bind at 1.
  pose proof (for_each_log_entry_pure rows
                {| self := self st; storage := db |}) as E.
  destruct (for_each (log_entry H) rows _) as [[ls|e] st1]; cbn in E;
    subst st1; [| reflexivity].
  destruct (len ls >? 50); reflexivity.
Qed.

Lemma _query_logs_db_self (sql_query : value) st :
  self (snd (_query_logs_db H sql_query st)) = self st.
Proof.
  unfold _query_logs_db.
  destruct (negb (truthy sql_query)); [reflexivity |].
  unfold try_except.
  destruct sql_query; try reflexivity.
  pose proof (guarded_query_self (VStr s) s st) as E.
  destruct (guarded_query H (VStr s) s st) as [[v|e] st1]; exact E.
Qed.

Lemma _query_logs_db_returns (sql_query : value) st :
  exists v, fst (_query_logs_db H sql_query st) = Ret v.
Proof.
  unfold _query_logs_db.
  destruct (negb (truthy sql_query)); [eexists; reflexivity |].
  unfold try_except.
  destruct sql_query; try (eexists; reflexivity).
  destruct (guarded_query H (VStr s) s st) as [[v|e] st1];
    eexists; reflexivity.
Qed.

Lemma _execute_tool_self (tool_name args : value) st :
  self (snd (_execute_tool H tool_name args st)) = self st.
Proof.
  unfold _execute_tool. unfold bind at 1. unfold attr, reads.
  destruct (eq_str tool_name "check_dependencies");
    [unfold_stx; cbn; repeat (case_scrutinee; cbn; trivial) |].
  destruct (eq_str tool_name "check_slack");
    [unfold_stx; cbn; repeat (case_scrutinee; cbn; trivial) |].
  destruct (eq_str tool_name "check_deployments");
    [unfold_stx; cbn; repeat (case_scrutinee; cbn; trivial) |].
  destruct (eq_str tool_name "query_logs"); [| reflexivity].
  unfold bind, lift.
  destruct (get args "sql_query" (VStr "")); [| reflexivity].
  apply _query_logs_db_self.
Qed.

(** **** The shape of [use_tool] *)

Lemma respond_returns (x : value) (r : Response) :
  respond x = Ret r -> r = ok x.
Proof.
  unfold respond. destruct (unserializable x); [discriminate |].
  now intros [= <-].
Qed.

Lemma use_tool_passing st data tool_call tool_name tool_args :
  completed (self st) = false ->
  tool_calls_made (self st) < max_tool_calls (self st) ->
  get data "tool_call" (VDict []) = Ret tool_call ->
  get tool_call "name" VNone = Ret tool_name ->
  get tool_call "arguments" (VDict []) = Ret tool_args ->
  truthy tool_name = true ->
  use_tool H data st
  = tool_reply (_execute_tool H tool_name tool_args (counted st)).
Proof.
  intros Hc Hb Htc Hn Ha Ht.
  unfold use_tool, tool_reply. unfold_stx. cbn.
  rewrite Hc.
  rewrite (geb_false _ _ Hb).
  rewrite Htc, Hn, Ha, Ht. cbn.
  fold (counted st).
  destruct (_execute_tool H tool_name tool_args (counted st)) as [[v|e] st'];
    reflexivity.
Qed.

Lemma use_tool_cases st data : use_tool_result st (use_tool H data st).
Proof.
  destruct (completed (self st)) eqn:Hc.
  { replace (use_tool H data st)
      with (Ret (bad_request "Environment completed"), st)
      by (unfold use_tool; unfold_stx; cbn; now rewrite Hc).
    now constructor. }
  destruct (tool_calls_made (self st) >=? max_tool_calls (self st)) eqn:Hb.
  { replace (use_tool H data st)
      with (Ret (bad_request "Max tool calls exceeded"), st)
      by (unfold use_tool; unfold_stx; cbn; now rewrite Hc, Hb).
    constructor; [exact Hc |]. rewrite Z.geb_leb in Hb.
    apply Z.leb_le in Hb. lia. }
  pose proof (geb_false_lt _ _ Hb) as Hlt.
  destruct (get data "tool_call" (VDict [])) as [tool_call|e] eqn:Htc.
  2: { replace (use_tool H data st) with (@Raise Response e, st)
         by (unfold use_tool; unfold_stx; cbn; now rewrite Hc, Hb, Htc).
       now constructor. }
  destruct (get tool_call "name" VNone) as [tool_name|e] eqn:Hn.
  2: { replace (use_tool H data st) with (@Raise Response e, st)
         by (unfold use_tool; unfold_stx; cbn; now rewrite Hc, Hb, Htc, Hn).
       now constructor. }
  destruct (get tool_call "arguments" (VDict [])) as [tool_args|e] eqn:Ha.
  2: { replace (use_tool H data st) with (@Raise Response e, st)
         by (unfold use_tool; unfold_stx; cbn;
             now rewrite Hc, Hb, Htc, Hn, Ha).
       now constructor. }
  destruct (truthy tool_name) eqn:Ht.
  - rewrite (use_tool_passing st data tool_call tool_name tool_args);
      trivial.
    now constructor.
  - replace (use_tool H data st)
      with (Ret (bad_request "Missing tool name"), st)
      by (unfold use_tool; unfold_stx; cbn;
          now rewrite Hc, Hb, Htc, Hn, Ha, Ht).
    now constructor.
Qed.

Lemma tool_reply_self (tool_name tool_args : value) st :
  self (snd (tool_reply (_execute_tool H tool_name tool_args st))) = self st.
Proof.
  pose proof (_execute_tool_self tool_name tool_args st) as E.
  destruct (_execute_tool H tool_name tool_args st) as [[v|e] st1]; exact E.
Qed.

Lemma use_tool_step st data :
  session_step (self st) (self (snd (use_tool H data st))).
Proof.
  destruct (use_tool_cases st data); try constructor.
  rewrite tool_reply_self. now constructor.
Qed.

Lemma submit_diagnosis_step st (diagnosis : value) :
  session_step (self st) (self (snd (submit_diagnosis H diagnosis st))).
Proof.
  unfold submit_diagnosis. unfold_stx. cbn.
  destruct (completed (self st)) eqn:Hc; [constructor |].
  cbn. repeat (case_scrutinee; cbn); now constructor.
Qed.

Lemma on_fetch_step st data :
  session_step (self st) (self (snd (on_fetch H data st))).
Proof.
  unfold on_fetch. unfold bind at 1. unfold lift.
  destruct (get data "action" VNone) as [action|e]; [| constructor].
  destruct (eq_str action "get_initial_state"); [constructor |].
  destruct (eq_str action "get_tools"); [constructor |].
  destruct (eq_str action "get_system_prompt").
  { unfold get_system_prompt. unfold_stx. cbn.
    destruct (call_str _ _ _); constructor. }
  destruct (eq_str action "update_system_prompt").
  { unfold bind at 1.
    destruct (get data "system_prompt" VNone) as [p|e]; [| constructor].
    unfold update_system_prompt.
    destruct (truthy p); unfold_stx; cbn; constructor. }
  destruct (eq_str action "use_tool").
  { unfold bind, ret.
    pose proof (use_tool_step st data) as S.
    destruct (use_tool H data st) as [[r|e] st1]; exact S. }
  destruct (eq_str action "submit_diagnosis"); [| constructor].
  unfold bind at 1.
  destruct (get data "diagnosis" VNone) as [d|e]; [| constructor].
  unfold bind, ret.
  pose proof (submit_diagnosis_step st d) as S.
  destruct (submit_diagnosis H d st) as [[r|e] st1]; exact S.
Qed.

Lemma step_within_budget (s s' : Session) :
  session_step s s' -> within_budget s -> within_budget s'.
Proof.
  unfold within_budget. destruct 1; cbn; lia.
Qed.

Lemma step_completed (s s' : Session) :
  session_step s s' -> completed s = true -> completed s' = true.
Proof.
  destruct 1; cbn; congruence.
Qed.

(** **** Serving requests *)

Lemma serve_cons (data : value) (rest : list value) st :
  serve H (data :: rest) st
  = (fst (on_fetch H data st) :: fst (serve H rest (snd (on_fetch H data st))),
     snd (serve H rest (snd (on_fetch H data st)))).
Proof.
  change (serve H (data :: rest) st)
    with (let (r, st1) := on_fetch H data st in
          let (rs, st2) := serve H rest st1 in (r :: rs, st2)).
  destruct (on_fetch H data st) as [r st1]. cbn [fst snd].
  destruct (serve H rest st1) as [rs st2]. reflexivity.
Qed.

Lemma serve_within_budget (requests : list value) st :
  within_budget (self st) ->
  within_budget (self (snd (serve H requests st))).
Proof.
  revert st. induction requests as [|data rest IH]; intros st B; [exact B |].
  rewrite serve_cons. cbn [snd]. apply IH.
  exact (step_within_budget _ _ (on_fetch_step st data) B).
Qed.

Lemma stx_bind_returns {S A B : Type} (c : stx S A) (k : A -> stx S B)
    (s s' : S) (b : B) :
  bind c k s = (Ret b, s') ->
  exists a s1, c s = (Ret a, s1) /\ k a s1 = (Ret b, s').
Proof.
  unfold bind. destruct (c s) as [[a|e] s1]; [| discriminate].
  intros E. now exists a, s1.
Qed.

Lemma __init___session (db db0 : Store H) (s0 : Session) :
  __init__ H db = (Ret s0, db0) ->
  s0 = {| tool_calls_made := 0; max_tool_calls := 10; completed := false;
          incident_data := _generate_incident;
          system_prompt := VStr _get_default_system_prompt |}.
Proof.
  unfold __init__. intros E.
  apply stx_bind_returns in E as (? & db1 & _ & E).
  apply stx_bind_returns in E as (? & db2 & _ & E).
  unfold ret in E. now injection E as <- _.
Qed.

(** **** What responses report *)

Lemma use_tool_calls_remaining st data (r : Response) (v : value) :
  fst (use_tool H data st) = Ret r ->
  field "calls_remaining" r = Some v ->
  v = VInt (max_tool_calls (self (snd (use_tool H data st)))
            - tool_calls_made (self (snd (use_tool H data st)))).
Proof.
  destruct (use_tool_cases st data) as [| | | |tool_name tool_args];
    cbn [fst snd].
  1, 2, 4: intros [= <-]; discriminate.
  1: discriminate.
  destruct (_execute_tool H tool_name tool_args (counted st))
    as [[tool_response|e] st1]; cbn [fst snd tool_reply]; [| discriminate].
  intros R. apply respond_returns in R. subst r. cbn. now intros [= <-].
Qed.

Lemma use_tool_unrewarded st data (r : Response) :
  fst (use_tool H data st) = Ret r -> field "total_reward" r = None.
Proof.
  destruct (use_tool_cases st data) as [| | | |tool_name tool_args];
    cbn [fst snd].
  1, 2, 4: intros [= <-]; reflexivity.
  1: discriminate.
  destruct (_execute_tool H tool_name tool_args (counted st))
    as [[tool_response|e] st1]; cbn [fst snd tool_reply]; [| discriminate].
  intros R. apply respond_returns in R. now subst r.
Qed.

Lemma submit_diagnosis_completed st (diagnosis : value) :
  completed (self st) = true ->
  submit_diagnosis H diagnosis st = (Ret (bad_request "Already completed"), st).
Proof.
  intros Hc. unfold submit_diagnosis. unfold_stx. cbn. now rewrite Hc.
Qed.

Lemma submit_diagnosis_closes st (diagnosis : value) :
  completed (self st) = false ->
  snd (submit_diagnosis H diagnosis st) = closed st.
Proof.
  intros Hc. unfold submit_diagnosis. unfold_stx. cbn. rewrite Hc. cbn.
  repeat (case_scrutinee; cbn); reflexivity.
Qed.

Lemma submit_diagnosis_calls_remaining st (diagnosis : value) (r : Response) :
  fst (submit_diagnosis H diagnosis st) = Ret r ->
  field "calls_remaining" r = None.
Proof.
  unfold submit_diagnosis. unfold_stx. cbn.
  destruct (completed (self st)); cbn; [now intros [= <-] |].
  repeat (case_scrutinee; cbn); try discriminate;
    intros [= <-]; reflexivity.
Qed.

Lemma answered_bind {S : Type} (c : stx S Response) (s : S) :
  (r <- c ;; ret (Some r)) s = answered (c s).
Proof.
  unfold bind, ret, answered. now destruct (c s) as [[r|e] s1].
Qed.

Lemma on_fetch_cases st data : on_fetch_result st data (on_fetch H data st).
Proof.
  unfold on_fetch. unfold bind at 1. unfold lift.
  destruct (get data "action" VNone) as [action|e]; [| constructor].
  destruct (eq_str action "get_initial_state");
    [rewrite answered_bind; constructor |].
  destruct (eq_str action "get_tools");
    [rewrite answered_bind; constructor |].
  destruct (eq_str action "get_system_prompt");
    [rewrite answered_bind; constructor |].
  destruct (eq_str action "update_system_prompt").
  { unfold bind at 1.
    destruct (get data "system_prompt" VNone) as [p|e]; [| constructor].
    rewrite answered_bind. constructor. }
  destruct (eq_str action "use_tool");
    [rewrite answered_bind; constructor |].
  destruct (eq_str action "submit_diagnosis"); [| constructor].
  unfold bind at 1.
  destruct (get data "diagnosis" VNone) as [d|e] eqn:Hd; [| constructor].
  rewrite answered_bind. now constructor.
Qed.

Lemma answered_returns {S : Type} (x : outcome Response * S) (r : Response) :
  fst (answered x) = Ret (Some r) -> fst x = Ret r.
Proof.
  destruct x as [[r1|e] s]; cbn; congruence.
Qed.

Lemma answered_state {S : Type} (x : outcome Response * S) :
  snd (answered x) = snd x.
Proof.
  now destruct x as [[r1|e] s].
Qed.

Lemma get_system_prompt_field st (r : Response) (key : string) :
  fst (get_system_prompt H st) = Ret r ->
  String.eqb key "system_prompt" = false ->
  field key r = None.
Proof.
  unfold get_system_prompt. unfold_stx. cbn.
  destruct (call_str _ _ _); cbn; [| discriminate].
  intros [= <-] K. cbn. now rewrite K.
Qed.

Lemma update_system_prompt_field st (p : value) (r : Response) (key : string) :
  fst (update_system_prompt H p st) = Ret r ->
  String.eqb key "status" = false ->
  String.eqb key "error" = false ->
  field key r = None.
Proof.
  unfold update_system_prompt.
  destruct (truthy p); unfold_stx; cbn; intros [= <-] K1 K2; cbn;
    now rewrite ?K1, ?K2.
Qed.

Lemma on_fetch_calls_remaining st data (r : Response) (v : value) :
  fst (on_fetch H data st) = Ret (Some r) ->
  field "calls_remaining" r = Some v ->
  v = VInt (max_tool_calls (self (snd (on_fetch H data st)))
            - tool_calls_made (self (snd (on_fetch H data st)))).
Proof.
  destruct (on_fetch_cases st data) as [e| | | |p| |d _|];
    try discriminate; rewrite answered_state; intros Hr;
    apply answered_returns in Hr.
  - revert Hr. cbn. intros [= <-]. cbn. now intros [= <-].
  - revert Hr. cbn. intros [= <-]. discriminate.
  - intros F. now rewrite (get_system_prompt_field st r _ Hr) in F.
  - intros F. now rewrite (update_system_prompt_field st p r _ Hr) in F.
  - now apply use_tool_calls_remaining.
  - intros F.
    now rewrite (submit_diagnosis_calls_remaining st d r Hr) in F.
Qed.

(** **** Rewards *)

Lemma on_fetch_rewarded st data :
  rewarded (fst (on_fetch H data st)) = true ->
  completed (self st) = false
  /\ completed (self (snd (on_fetch H data st))) = true.
Proof.
  destruct (on_fetch_cases st data) as [e| | | |p| |d _|].
  - discriminate.
  - discriminate.
  - discriminate.
  - unfold get_system_prompt. unfold_stx. cbn.
    destruct (call_str _ _ _); discriminate.
  - unfold update_system_prompt. destruct (truthy p); discriminate.
  - pose proof (use_tool_unrewarded st data) as U.
    destruct (use_tool H data st) as [[r|e] st1]; cbn in *;
      [| discriminate].
    now rewrite (U r eq_refl).
  - destruct (completed (self st)) eqn:Hc.
    + now rewrite submit_diagnosis_completed.
    + intros _. split; [reflexivity |].
      rewrite answered_state. now rewrite submit_diagnosis_closes.
  - discriminate.
Qed.

Lemma serve_completed (requests : list value) st :
  completed (self st) = true ->
  filter rewarded (fst (serve H requests st)) = []
  /\ completed (self (snd (serve H requests st))) = true.
Proof.
  revert st. induction requests as [|data rest IH]; intros st Hc;
    [now split |].
  rewrite serve_cons. cbn [fst snd filter].
  destruct (rewarded (fst (on_fetch H data st))) eqn:R.
  - apply on_fetch_rewarded in R as [R _]. congruence.
  - apply IH. exact (step_completed _ _ (on_fetch_step st data) Hc).
Qed.

Lemma serve_rewards_once (requests : list value) st :
  (List.length (filter rewarded (fst (serve H requests st))) <= 1)%nat.
Proof.
  revert st. induction requests as [|data rest IH]; intros st;
    [cbn; lia |].
  rewrite serve_cons. cbn [fst snd filter].
  destruct (rewarded (fst (on_fetch H data st))) eqn:R; [| apply IH].
  apply on_fetch_rewarded in R as [_ R].
  destruct (serve_completed rest _ R) as [-> _]. cbn. lia.
Qed.

Lemma submit_diagnosis_correct st (agent : string) (calls : float) :
  completed (self st) = false ->
  float_of_int (tool_calls_made (self st) - 1) = Ret calls ->
  same_ignoring_case agent (correct_diagnosis (incident_data (self st))) ->
  submit_diagnosis H (VStr agent) st
  = (Ret (ok (diagnosis_result true
                (correct_diagnosis (incident_data (self st))) (VStr agent)
                2.0 (py_max 0.0 (1.0 - 0.15 * calls))
                (2.0 + py_max 0.0 (1.0 - 0.15 * calls))
                (tool_calls_made (self st)))),
     closed st).
Proof.
  intros Hc Hf Hs. apply lower_same in Hs.
  unfold submit_diagnosis. unfold_stx. cbn. rewrite Hc. cbn.
  now rewrite Hs, Hf.
Qed.

(** **** The dispatcher *)


Lemma _execute_tool_storage (tool_name args : value) st :
  eq_str tool_name "query_logs" = false ->
  storage (snd (_execute_tool H tool_name args st)) = storage st.
Proof.
  intros E. unfold _execute_tool. unfold bind at 1. unfold attr, reads.
  destruct (eq_str tool_name "check_dependencies");
    [unfold_stx; cbn; repeat (case_scrutinee; cbn; trivial) |].
  destruct (eq_str tool_name "check_slack");
    [unfold_stx; cbn; repeat (case_scrutinee; cbn; trivial) |].
  destruct (eq_str tool_name "check_deployments");
    [unfold_stx; cbn; repeat (case_scrutinee; cbn; trivial) |].
  now rewrite E.
Qed.

Lemma matching_text {A : Type} (q : string) (f : A -> string)
    (items : list A) :
  matching (VStr q) f items
  = Ret (filter (fun d => str_in (lower q) (lower (f d))) items).
Proof.
  induction items as [|d rest IH]; [reflexivity |].
  cbn. rewrite IH. cbn. now destruct (str_in (lower q) (lower (f d))).
Qed.

Lemma matching_returns {A : Type} (query : value) (f : A -> string)
    (items : list A) :
  truthy query = true -> text_or_falsy query = true ->
  exists kept, matching query f items = Ret kept.
Proof.
  intros T F.
  destruct query;
    try (cbn [text_or_falsy] in F; rewrite T in F; discriminate).
  eexists. apply matching_text.
Qed.

Lemma _execute_tool_returns (tool_name : value) (d : list (string * value))
    (query : value) st :
  get (VDict d) "query" (VStr "") = Ret query ->
  (filters tool_name = true -> text_or_falsy query = true) ->
  exists v, fst (_execute_tool H tool_name (VDict d) st) = Ret v.
Proof.
  intros Q. cbn in Q. injection Q as Q. unfold filters. intros F.
  unfold _execute_tool. unfold bind at 1. unfold attr, reads.
  destruct (eq_str tool_name "check_dependencies").
  { specialize (F eq_refl). unfold bind at 1. unfold lift, get.
    rewrite Q. destruct (truthy query) eqn:T; [| eexists; reflexivity].
    destruct (matching_returns query dep_name
                (dependencies (environment (incident_data (self st)))) T F)
      as [kept E].
    unfold_stx. rewrite E. eexists; reflexivity. }
  destruct (eq_str tool_name "check_slack").
  { specialize (F eq_refl). unfold bind at 1. unfold lift, get.
    rewrite Q. destruct (truthy query) eqn:T; [| eexists; reflexivity].
    destruct (matching_returns query msg_content
                (slack_messages (environment (incident_data (self st)))) T F)
      as [kept E].
    unfold_stx. rewrite E. eexists; reflexivity. }
  destruct (eq_str tool_name "check_deployments").
  { specialize (F eq_refl). unfold bind at 1. unfold lift, get.
    rewrite Q. destruct (truthy query) eqn:T; [| eexists; reflexivity].
    destruct (matching_returns query dpl_service
                (deployments (environment (incident_data (self st)))) T F)
      as [kept E].
    unfold_stx. rewrite E. eexists; reflexivity. }
  destruct (eq_str tool_name "query_logs"); [| eexists; reflexivity].
  unfold bind, lift, get. apply _query_logs_db_returns.
Qed.

(** **** The log query *)

Lemma _query_logs_db_empty (sql_query : value) st :
  truthy sql_query = false ->
  _query_logs_db H sql_query st
  = (Ret (error_dict "No SQL query provided"), st).
Proof.
  intros T. unfold _query_logs_db. now rewrite T.
Qed.

Lemma _query_logs_db_text (q : string) st :
  q <> EmptyString ->
  _query_logs_db H (VStr q) st
  = try_except (guarded_query H (VStr q) q)
      (fun e => ret (error_dict ("SQL execution failed: " ++ exn_str e))) st.
Proof.
  intros N. unfold _query_logs_db.
  replace (truthy (VStr q)) with true; [reflexivity |].
  cbn. destruct (String.eqb_spec q ""); [contradiction | reflexivity].
Qed.

Lemma _query_logs_db_rejected (q : string) st :
  q <> EmptyString ->
  startswith (upper (strip q)) "SELECT" = false ->
  _query_logs_db H (VStr q) st
  = (Ret (error_dict "Only SELECT queries are allowed"), st).
Proof.
  intros N G. rewrite _query_logs_db_text by exact N.
  unfold try_except, guarded_query. now rewrite G.
Qed.

Lemma _query_logs_db_fault (q : string) (e : exn) (db : Store H) st :
  q <> EmptyString ->
  startswith (upper (strip q)) "SELECT" = true ->
  sql_exec_all H q (storage st) = (Raise e, db) ->
  _query_logs_db H (VStr q) st
  = (Ret (error_dict ("SQL execution failed: " ++ exn_str e)),
     {| self := self st; storage := db |}).
Proof.
  intros N G E. rewrite _query_logs_db_text by exact N.
  unfold try_except, guarded_query. rewrite G. cbn [negb].
  unfold bind at 1. unfold on_storage. now rewrite E.
Qed.

Lemma _query_logs_db_rows (q : string) (rows : list (Row H)) (db : Store H)
    (logs : list value) st :
  q <> EmptyString ->
  startswith (upper (strip q)) "SELECT" = true ->
  sql_exec_all H q (storage st) = (Ret rows, db) ->
  fst (for_each (log_entry H) rows {| self := self st; storage := db |})
  = Ret logs ->
  _query_logs_db H (VStr q) st
  = (Ret (if len logs >? 50
          then VDict [("logs", VList (firstn 50 logs));
                      ("total_found", VInt (len logs));
                      ("query_executed", VStr q);
                      ("warning", VStr (truncation_warning (len logs)))]
          else VDict [("logs", VList logs);
                      ("total_found", VInt (len logs));
                      ("query_executed", VStr q)]),
     {| self := self st; storage := db |}).
Proof.
  intros N G E L. rewrite _query_logs_db_text by exact N.
  unfold try_except, guarded_query. rewrite G. cbn [negb].
  unfold bind at 1. unfold on_storage. rewrite E. unfold bind at 1.
  pose proof (for_each_log_entry_pure rows
                {| self := self st; storage := db |}) as P.
  destruct (for_each (log_entry H) rows _) as [[ls|e] st1]; cbn in L, P;
    [| discriminate].
  injection L as ->. subst st1. unfold ret.
  now destruct (len logs >? 50).
Qed.

Lemma _query_logs_db_storage (sql_query : value) st :
  storage (snd (_query_logs_db H sql_query st)) = storage st
  \/ exists q : string,
      sql_query = VStr q
      /\ passes_gate q = true
      /\ storage (snd (_query_logs_db H sql_query st))
         = snd (sql_exec_all H q (storage st)).
Proof.
  unfold _query_logs_db.
  destruct (negb (truthy sql_query)); [now left |].
  unfold try_except.
  destruct sql_query as [| | | |q| | |]; try (now left).
  unfold guarded_query, passes_gate.
  destruct (startswith (upper (strip q)) "SELECT") eqn:G; [| now left].
  right. exists q. split; [reflexivity |].
  split; [first [exact G | reflexivity] |].
  cbn [negb]. unfold bind at 1. unfold on_storage.
  destruct (sql_exec_all H q (storage st)) as [[rows|e] db]; [| reflexivity].
  unfold bind at 1.
  pose proof (for_each_log_entry_pure rows
                {| self := self st; storage := db |}) as P.
  destruct (for_each (log_entry H) rows _) as [[ls|e] st1]; cbn in P;
    subst st1; [| reflexivity].
  unfold ret. now destruct (len ls >? 50).
Qed.

Lemma for_each_length {S A B : Type} (f : A -> stx S B) (l : list A)
    (s : S) (ys : list B) :
  fst (for_each f l s) = Ret ys -> List.length ys = List.length l.
Proof.
  revert s ys. induction l as [|x t IH]; intros s ys; cbn.
  - now intros [= <-].
  - unfold bind at 1. destruct (f x s) as [[y|e] s1]; [| discriminate].
    unfold bind at 1. specialize (IH s1).
    destruct (for_each f t s1) as [[ys'|e] s2]; [| discriminate].
    cbn. intros [= <-]. cbn. f_equal. now apply IH.
Qed.

Lemma for_each_log_entry_firstn (n : nat) (rows : list (Row H))
    (logs : list value) st :
  fst (for_each (log_entry H) rows st) = Ret logs ->
  fst (for_each (log_entry H) (firstn n rows) st) = Ret (firstn n logs).
Proof.
  revert rows logs. induction n as [|n IH]; intros rows logs;
    [reflexivity |].
  destruct rows as [|row rows]; cbn.
  - now intros [= <-].
  - unfold bind at 1 3.
    pose proof (log_entry_pure row st) as P.
    destruct (log_entry H row st) as [[y|e] st1]; cbn in P; subst st1;
      [| discriminate].
    unfold bind at 1 2. specialize (IH rows).
    destruct (for_each (log_entry H) rows st) as [[ys|e] st1];
      [| discriminate].
    cbn. intros [= <-]. cbn in IH. specialize (IH ys eq_refl).
    pose proof (for_each_log_entry_pure (firstn n rows) st) as P.
    destruct (for_each (log_entry H) (firstn n rows) st) as [[zs|e] st2];
      cbn in *; [| discriminate].
    now injection IH as ->.
Qed.

(** **** Keywords *)




Lemma eq_str_true (v : value) (lit : string) :
  eq_str v lit = true -> v = VStr lit.
Proof.
  destruct v; cbn; try discriminate.
  intros E. apply String.eqb_eq in E. now subst.
Qed.


Lemma dicts_serializable {A : Type} (f : A -> value) (l : list A) :
  (forall x, unserializable (f x) = None) ->
  unserializable (VList (map f l)) = None.
Proof.
  intros F. induction l as [|x l IH]; [reflexivity |].
  cbn in *. now rewrite F.
Qed.

Lemma tool_reply_returned (answer : value) st :
  tool_reply (Ret answer, st)
  = (match unserializable answer with
     | None =>
         Ret (ok (VDict [("tool_response", answer);
                         ("calls_remaining",
                          VInt (max_tool_calls (self st)
                                - tool_calls_made (self st)));
                         ("call_number", VInt (tool_calls_made (self st)))]))
     | Some type =>
         Raise (Exn TypeError
                  ("Object of type " ++ type ++ " is not JSON serializable"))
     end, st).
Proof.
  unfold tool_reply, respond. cbn [unserializable].
  now destruct (unserializable answer).
Qed.

Lemma unserializable_dict_cons (k : string) (v : value)
    (rest : list (string * value)) :
  unserializable (VDict ((k, v) :: rest))
  = match unserializable v with
    | Some type => Some type
    | None => unserializable (VDict rest)
    end.
Proof.
  reflexivity.
Qed.

Lemma matching_raises {A : Type} (query : value) (f : A -> string)
    (items : list A) :
  (forall q, query <> VStr q) -> items <> [] ->
  matching query f items = Raise (no_attribute query "lower").
Proof.
  intros NT NE. destruct items as [|d rest]; [contradiction |].
  cbn. destruct query; try reflexivity. now destruct (NT s).
Qed.


(** C2. On a session that is not completed, [submit_diagnosis] with the
    text [agent] returns a DiagnosisResult in which [correct] is the
    case-insensitive exact equality of [agent] and the correct diagnosis,
    [primary_reward] is 2.0 if correct else 0.0, [efficiency_reward] is
    max(0.0, 1.0 - 0.15 * (tool_calls_made - 1)) if correct else 0.0 and
    [total_reward] is their sum.  Within the budget of ten calls the
    efficiency reward of a correct diagnosis is the greater of 0.0 and
    1.0 - 0.15 * (tool_calls_made - 1): it is one of the two and not
    below either.  A correct diagnosis after one call earns 2.0, 1.0 and
    3.0, after five calls 0.4 for efficiency and 2.4 in total, and after
    nine calls, where the term is negative, 0.0 and 2.0. *)
Theorem submit_diagnosis_reward st (agent : string) (calls : float) :
  completed (self st) = false ->
  float_of_int (tool_calls_made (self st) - 1) = Ret calls ->
  exists (correct : bool) (primary efficiency total : float),
    submit_diagnosis H (VStr agent) st
    = (Ret (ok (diagnosis_result correct
                  (correct_diagnosis (incident_data (self st)))
                  (VStr agent) primary efficiency total
                  (tool_calls_made (self st)))),
       closed st)
    /\ (correct = true
        <-> same_ignoring_case agent
              (correct_diagnosis (incident_data (self st))))
    /\ primary = (if correct then 2.0 else 0.0)%float
    /\ efficiency
       = (if correct then py_max 0.0 (1.0 - 0.15 * calls) else 0.0)%float
    /\ total = (primary + efficiency)%float
    /\ (correct = true -> 0 <= tool_calls_made (self st) <= 10 ->
        PrimFloat.leb 0.0 efficiency = true
        /\ PrimFloat.leb (1.0 - 0.15 * calls) efficiency = true
        /\ (efficiency = 0.0%float
            \/ efficiency = (1.0 - 0.15 * calls)%float))
    /\ (correct = true -> tool_calls_made (self st) = 1 ->
        primary = 2.0%float /\ efficiency = 1.0%float /\ total = 3.0%float)
    /\ (correct = true -> tool_calls_made (self st) = 5 ->
        primary = 2.0%float /\ efficiency = 0.4%float /\ total = 2.4%float)
    /\ (correct = true -> tool_calls_made (self st) = 9 ->
        primary = 2.0%float /\ efficiency = 0.0%float /\ total = 2.0%float).
Proof.
  intros Hc Hf.
  set (expected := correct_diagnosis (incident_data (self st))).
  set (correct := String.eqb (lower agent) (lower expected)).
  exists correct,
    (if correct then 2.0 else 0.0)%float,
    (if correct then py_max 0.0 (1.0 - 0.15 * calls) else 0.0)%float.
  eexists.
  split; [| split; [| split; [| split; [| split;
    [| split; [| split; [| split]]]]]]]; try reflexivity.
  - unfold submit_diagnosis. unfold_stx. cbn. rewrite Hc. cbn.
    fold expected. fold correct.
    destruct correct; [rewrite Hf |]; reflexivity.
  - apply lower_same.
  - intros -> B. revert Hf.
    generalize (tool_calls_made (self st)) B. clear. intros n B.
    each_budget n B; vm_compute; intros [= <-]; vm_compute;
      (split; [reflexivity |]); (split; [reflexivity |]);
      first [left; reflexivity | right; reflexivity].
  - intros -> E. rewrite E in Hf. vm_compute in Hf.
    injection Hf as <-. repeat split; vm_compute; reflexivity.
  - intros -> E. rewrite E in Hf. vm_compute in Hf.
    injection Hf as <-. repeat split; vm_compute; reflexivity.
  - intros -> E. rewrite E in Hf. vm_compute in Hf.
    injection Hf as <-. repeat split; vm_compute; reflexivity.
Qed.

(** C3. In every session built by [__init__], after every sequence of
    requests the counter satisfies 0 <= tool_calls_made <= max_tool_calls,
    and a response that reports [calls_remaining] reports exactly
    max_tool_calls - tool_calls_made of the object it leaves, a number that
    is not negative. *)
Theorem budget_invariant (db db0 : Store H) (s0 : Session)
    (requests : list value) :
  __init__ H db = (Ret s0, db0) ->
  let st := snd (serve H requests {| self := s0; storage := db0 |}) in
  0 <= tool_calls_made (self st) <= max_tool_calls (self st)
  /\ forall (data : value) (r : Response) (v : value),
       fst (on_fetch H data st) = Ret (Some r) ->
       field "calls_remaining" r = Some v ->
       let st' := snd (on_fetch H data st) in
       v = VInt (max_tool_calls (self st') - tool_calls_made (self st'))
       /\ 0 <= max_tool_calls (self st') - tool_calls_made (self st').
Proof.
  intros E st.
  assert (B : within_budget (self st)).
  { apply serve_within_budget. apply __init___session in E. subst s0.
    unfold within_budget. cbn. lia. }
  split; [exact B |].
  intros data r v Hr Hv st'. split.
  - now apply on_fetch_calls_remaining with (r := r).
  - pose proof (step_within_budget _ _ (on_fetch_step st data) B) as B'.
    fold st' in B'. unfold within_budget in B'. lia.
Qed.

(** C4. Completion is final.  In any sequence of requests at most one
    response carries a reward, and a response carries one only by taking
    the session from not completed to completed.  On a completed session
    [use_tool] always answers "Environment completed", [submit_diagnosis]
    always answers "Already completed" with no reward field and without
    touching the object, and the session stays completed and unrewarded
    whatever is requested next. *)
Theorem completion_is_final st (requests : list value) :
  (List.length (filter rewarded (fst (serve H requests st))) <= 1)%nat
  /\ (forall data,
        rewarded (fst (on_fetch H data st)) = true ->
        completed (self st) = false
        /\ completed (self (snd (on_fetch H data st))) = true)
  /\ (completed (self st) = true ->
      (forall data,
          use_tool H data st = (Ret (bad_request "Environment completed"), st))
      /\ (forall diagnosis,
             submit_diagnosis H diagnosis st
             = (Ret (bad_request "Already completed"), st))
      /\ field "primary_reward" (bad_request "Already completed") = None
      /\ field "efficiency_reward" (bad_request "Already completed") = None
      /\ field "total_reward" (bad_request "Already completed") = None
      /\ filter rewarded (fst (serve H requests st)) = []
      /\ completed (self (snd (serve H requests st))) = true).
Proof.
  split; [apply serve_rewards_once |].
  split; [apply on_fetch_rewarded |].
  intros Hc. repeat split; try apply (serve_completed requests st Hc).
  - intros data. unfold use_tool. unfold_stx. cbn. now rewrite Hc.
  - intros diagnosis. now apply submit_diagnosis_completed.
Qed.

(** C5. A correct diagnosis submitted before any tool call earns an
    efficiency reward of 1.15: the term 1.0 - 0.15 * (0 - 1) is 1.15, the
    maximum with 0.0 leaves it as it is, and nothing bounds it by 1.0. *)
Theorem zero_calls_efficiency st (agent : string) :
  completed (self st) = false ->
  tool_calls_made (self st) = 0 ->
  same_ignoring_case agent (correct_diagnosis (incident_data (self st))) ->
  exists r : Response,
    submit_diagnosis H (VStr agent) st = (Ret r, closed st)
    /\ field "efficiency_reward" r = Some (VFloat 1.15)
    /\ field "total_reward" r = Some (VFloat 3.15)
    /\ float_of_int (0 - 1) = Ret (-1.0)%float
    /\ (1.0 - 0.15 * (-1.0))%float = 1.15%float
    /\ py_max 0.0 1.15 = 1.15%float
    /\ PrimFloat.ltb 1.0 1.15 = true.
Proof.
  intros Hc Hz Hs. eexists. split.
  - apply submit_diagnosis_correct with (calls := (-1.0)%float); trivial.
    now rewrite Hz.
  - repeat split; vm_compute; reflexivity.
Qed.


(** C6. Exceptions do escape [use_tool]: only the body of
    [_query_logs_db] is guarded.  The dispatch returns, with the unknown
    tool name and the SQL fault in band, as long as the arguments are a
    mapping and the [query] of a filter tool is a text or falsy.  But on
    a session that is not completed and has budget left, a filter tool
    whose list is not empty, called with a [query] that is truthy and not
    a text, raises the [AttributeError] of [query.lower()]; and
    [query_logs], when the entries it returns hold an object that
    [json.dumps] cannot serialize, makes [use_tool] raise its
    [TypeError]; both after the call was counted, and the second after
    the query ran. *)
Theorem use_tool_lets_exceptions_escape st (query : value) :
  completed (self st) = false ->
  tool_calls_made (self st) < max_tool_calls (self st) ->
  let request (name : string) (arguments : list (string * value)) :=
    VDict [("action", VStr "use_tool");
           ("tool_call",
            VDict [("name", VStr name); ("arguments", VDict arguments)])] in
  let env := environment (incident_data (self st)) in
  (forall (tool_name : value) (d : list (string * value)) (given : value),
      get (VDict d) "query" (VStr "") = Ret given ->
      (filters tool_name = true -> text_or_falsy given = true) ->
      exists v, fst (_execute_tool H tool_name (VDict d) st) = Ret v)
  /\ (truthy query = true -> (forall q, query <> VStr q) ->
      (dependencies env <> [] ->
       use_tool H (request "check_dependencies" [("query", query)]) st
       = (Raise (no_attribute query "lower"), counted st))
      /\ (slack_messages env <> [] ->
          use_tool H (request "check_slack" [("query", query)]) st
          = (Raise (no_attribute query "lower"), counted st))
      /\ (deployments env <> [] ->
          use_tool H (request "check_deployments" [("query", query)]) st
          = (Raise (no_attribute query "lower"), counted st)))
  /\ (forall (q : string) (rows : list (Row H)) (db : Store H)
             (logs : list value) (type : string),
         q <> EmptyString ->
         passes_gate q = true ->
         sql_exec_all H q (storage st) = (Ret rows, db) ->
         fst (for_each (log_entry H) rows
                {| self := self (counted st); storage := db |})
         = Ret logs ->
         unserializable (VList (firstn 50 logs)) = Some type ->
         use_tool H (request "query_logs" [("sql_query", VStr q)]) st
         = (Raise (Exn TypeError
                     ("Object of type " ++ type
                      ++ " is not JSON serializable")),
            {| self := self (counted st); storage := db |})).
Proof.
  intros Hc Hb request env.
  assert (P : forall name arguments,
             name <> EmptyString ->
             use_tool H (request name arguments) st
             = tool_reply (_execute_tool H (VStr name) (VDict arguments)
                             (counted st))).
  { intros name arguments N.
    apply (use_tool_passing st _
             (VDict [("name", VStr name); ("arguments", VDict arguments)]));
      trivial.
    cbn. now destruct (String.eqb_spec name ""). }
  split; [| split].
  - intros tool_name d given Q F. now apply (_execute_tool_returns _ _ given).
  - intros T NT. split; [| split]; intros NE; rewrite P by discriminate;
      unfold _execute_tool; unfold_stx; cbn; rewrite T;
      fold env; now rewrite matching_raises.
  - intros q rows db logs type N G E L U. rewrite P by discriminate.
    assert (X : _execute_tool H (VStr "query_logs")
                  (VDict [("sql_query", VStr q)]) (counted st)
                = _query_logs_db H (VStr q) (counted st)).
    { unfold _execute_tool. unfold_stx. now cbn. }
    rewrite X, (_query_logs_db_rows q rows db logs (counted st) N G E L).
    rewrite tool_reply_returned.
    destruct (Z.gtb_spec (len logs) 50) as [C|C].
    + now rewrite unserializable_dict_cons, U.
    + rewrite firstn_all2 in U by (unfold len in C; lia).
      now rewrite unserializable_dict_cons, U.
Qed.

(** C7. A request to submit a diagnosis that carries no diagnosis is not
    answered with an error response: [on_fetch] raises, and the session is
    left completed although no diagnosis was judged, so that the next
    diagnosis is refused.  A request with an unknown action is answered
    with no response at all. *)
Theorem missing_diagnosis_closes_session st (agent : string) :
  completed (self st) = false ->
  on_fetch H (VDict [("action", VStr "submit_diagnosis")]) st
  = (Raise (no_attribute VNone "lower"), closed st)
  /\ completed (self (closed st)) = true
  /\ submit_diagnosis H (VStr agent) (closed st)
     = (Ret (bad_request "Already completed"), closed st)
  /\ on_fetch H (VDict [("action", VStr "restart")]) st = (Ret None, st).
Proof.
  intros Hc. repeat split.
  unfold on_fetch, submit_diagnosis. unfold_stx. cbn. now rewrite Hc.
Qed.


Lemma log_entry_columns (row : Row H) (e : value) st :
  fst (log_entry H row st) = Ret e -> entry_of_row row e.
Proof.
  unfold log_entry, entry_of_row, loads. unfold_stx. cbn.
  destruct (row_attr H row "timestamp") as [timestamp|]; [| discriminate].
  destruct (row_attr H row "level") as [level|]; [| discriminate].
  destruct (row_attr H row "service") as [service|]; [| discriminate].
  destruct (row_attr H row "message") as [message|]; [| discriminate].
  cbn. destruct (row_attr H row "metadata") as [stored|]; [| discriminate].
  cbn. destruct (truthy stored) eqn:T; cbn.
  - destruct (json_loads H stored) as [metadata|] eqn:L; [| discriminate].
    cbn. intros [= <-].
    exists timestamp, level, service, message, stored, metadata.
    rewrite T. now repeat split.
  - intros [= <-].
    exists timestamp, level, service, message, stored, (VDict []).
    rewrite T. now repeat split.
Qed.

Lemma for_each_log_entry_columns (rows : list (Row H)) (logs : list value)
    st :
  fst (for_each (log_entry H) rows st) = Ret logs ->
  Forall2 entry_of_row rows logs.
Proof.
  revert logs. induction rows as [|row rows IH]; intros logs; cbn.
  - intros [= <-]. constructor.
  - unfold bind at 1.
    pose proof (log_entry_pure row st) as P.
    pose proof (fun e => log_entry_columns row e st) as C.
    destruct (log_entry H row st) as [[e|x] st1]; cbn in P; subst st1;
      [| discriminate].
    unfold bind at 1.
    destruct (for_each (log_entry H) rows st) as [[es|x] st1];
      [| discriminate].
    cbn. intros [= <-]. constructor; [now apply C | now apply IH].
Qed.

(** C9. When a query passes the gate, the engine returns its rows and
    every row converts, the answer echoes the query text under
    [query_executed]; with more than 50 rows it holds under [logs] the
    entries of exactly the first 50 rows in the order of the result,
    under [total_found] the number of all rows, and a warning that is not
    empty; with at most 50 rows it holds all entries, their number, and
    no warning.  The entry of a row holds the row's timestamp, level,
    service and message, and its decoded metadata. *)
Theorem query_logs_truncation st (q : string) (rows : list (Row H))
    (db : Store H) (logs : list value) :
  q <> EmptyString ->
  startswith (upper (strip q)) "SELECT" = true ->
  sql_exec_all H q (storage st) = (Ret rows, db) ->
  fst (for_each (log_entry H) rows {| self := self st; storage := db |})
  = Ret logs ->
  exists answer : value,
    fst (_query_logs_db H (VStr q) st) = Ret answer
    /\ Forall2 entry_of_row rows logs
    /\ entry "query_executed" answer = Some (VStr q)
    /\ entry "total_found" answer = Some (VInt (Z.of_nat (List.length rows)))
    /\ ((50 < List.length rows)%nat ->
        entry "logs" answer = Some (VList (firstn 50 logs))
        /\ List.length (firstn 50 logs) = 50%nat
        /\ Forall2 entry_of_row (firstn 50 rows) (firstn 50 logs)
        /\ fst (for_each (log_entry H) (firstn 50 rows)
                  {| self := self st; storage := db |})
           = Ret (firstn 50 logs)
        /\ exists warning : string,
            entry "warning" answer = Some (VStr warning)
            /\ warning <> EmptyString)
    /\ ((List.length rows <= 50)%nat ->
        entry "logs" answer = Some (VList logs)
        /\ List.length logs = List.length rows
        /\ entry "warning" answer = None).
Proof.
  intros N G E L.
  pose proof (for_each_length _ _ _ _ L) as Len.
  pose proof (for_each_log_entry_columns _ _ _ L) as Cols.
  rewrite (_query_logs_db_rows q rows db logs st N G E L). cbn [fst].
  unfold len. rewrite Len.
  destruct (Z.gtb_spec (Z.of_nat (List.length rows)) 50) as [C|C];
    eexists; (split; [reflexivity |]); (split; [exact Cols |]);
    (split; [reflexivity |]); (split; [reflexivity |]);
    split; try (intros; lia); intros _.
  - split; [reflexivity |].
    split; [apply firstn_length_le; lia |].
    split; [apply (for_each_log_entry_columns _ _
                     {| self := self st; storage := db |});
            now apply for_each_log_entry_firstn |].
    split; [now apply for_each_log_entry_firstn |].
    eexists. split; [reflexivity | discriminate].
  - repeat split; try exact Len.
Qed.

End Facts.

(** ** Further properties of the environment *)

Section MoreFacts.

Variable H : Host.

Implicit Types (st : State H) (data : value).

(** **** The counter *)

Lemma step_counter (s s' : Session) :
  session_step s s' ->
  tool_calls_made s <= tool_calls_made s'
  /\ max_tool_calls s' = max_tool_calls s.
Proof.
  destruct 1; cbn; lia.
Qed.

Lemma submit_diagnosis_no_tool st (diagnosis : value) (r : Response) :
  fst (submit_diagnosis H diagnosis st) = Ret r ->
  field "tool_response" r = None.
Proof.
  unfold submit_diagnosis. unfold_stx. cbn.
  destruct (completed (self st)); cbn; [now intros [= <-] |].
  repeat (case_scrutinee; cbn); try discriminate;
    intros [= <-]; reflexivity.
Qed.

Lemma use_tool_executed st data (r : Response) :
  fst (use_tool H data st) = Ret r ->
  field "tool_response" r <> None ->
  self (snd (use_tool H data st)) = self (counted st)
  /\ completed (self st) = false
  /\ tool_calls_made (self st) < max_tool_calls (self st).
Proof.
  destruct (use_tool_cases H st data) as [| | | |tool_name tool_args];
    cbn [fst snd].
  1, 2, 4: intros [= <-]; cbn; congruence.
  1: discriminate.
  intros _ _. rewrite tool_reply_self. now repeat split.
Qed.

Lemma on_fetch_executed st data :
  executed (fst (on_fetch H data st)) = true ->
  tool_calls_made (self (snd (on_fetch H data st)))
  = tool_calls_made (self st) + 1.
Proof.
  destruct (on_fetch_cases H st data) as [e| | | |p| |d _|].
  - discriminate.
  - discriminate.
  - discriminate.
  - unfold get_system_prompt. unfold_stx. cbn.
    destruct (call_str _ _ _); discriminate.
  - unfold update_system_prompt. destruct (truthy p); discriminate.
  - pose proof (use_tool_executed st data) as U.
    destruct (use_tool H data st) as [[r|e] st1]; cbn in *;
      [| discriminate].
    destruct (field "tool_response" r) eqn:F; [| discriminate].
    intros _. destruct (U r eq_refl) as (-> & _); [congruence | reflexivity].
  - pose proof (submit_diagnosis_no_tool st d) as U.
    destruct (submit_diagnosis H d st) as [[r|e] st1]; cbn in *;
      [| discriminate].
    now rewrite (U r eq_refl).
  - discriminate.
Qed.

(** X1. Whatever is requested, the counter grows by at least the number
    of tool results handed out and stays within the budget: a session
    hands out at most [max_tool_calls - tool_calls_made] further tool
    results. *)
Theorem tool_results_within_budget st (requests : list value) :
  0 <= tool_calls_made (self st) <= max_tool_calls (self st) ->
  let answers := fst (serve H requests st) in
  let st' := snd (serve H requests st) in
  tool_calls_made (self st) + Z.of_nat (List.length (filter executed answers))
  <= tool_calls_made (self st')
  /\ tool_calls_made (self st') <= max_tool_calls (self st)
  /\ Z.of_nat (List.length (filter executed answers))
     <= max_tool_calls (self st) - tool_calls_made (self st).
Proof.
  intros B. cbn zeta.
  assert (G : tool_calls_made (self st)
              + Z.of_nat (List.length
                            (filter executed (fst (serve H requests st))))
              <= tool_calls_made (self (snd (serve H requests st)))
              /\ tool_calls_made (self (snd (serve H requests st)))
                 <= max_tool_calls (self st)); [| lia].
  revert st B. induction requests as [|data rest IH]; intros st B;
    [cbn; lia |].
  rewrite serve_cons. cbn [fst snd filter].
  pose proof (on_fetch_step H st data) as S.
  pose proof (step_within_budget _ _ S B) as B'.
  destruct (step_counter _ _ S) as [Up Same].
  specialize (IH _ B'). rewrite Same in IH.
  destruct (executed (fst (on_fetch H data st))) eqn:X; [| lia].
  apply on_fetch_executed in X. cbn [List.length]. lia.
Qed.

(** X2. In the answer of a tool call, [call_number] is the counter after
    the call, it lies between 1 and [max_tool_calls], and
    [calls_remaining] is [max_tool_calls] minus it. *)
Theorem call_number_and_remaining st data (r : Response) :
  0 <= tool_calls_made (self st) <= max_tool_calls (self st) ->
  fst (use_tool H data st) = Ret r ->
  field "tool_response" r <> None ->
  let n := tool_calls_made (self st) + 1 in
  field "call_number" r = Some (VInt n)
  /\ field "calls_remaining" r = Some (VInt (max_tool_calls (self st) - n))
  /\ 1 <= n <= max_tool_calls (self st)
  /\ status r = 200.
Proof.
  intros B. cbn zeta.
  destruct (use_tool_cases H st data) as [| | | |tool_name tool_args];
    cbn [fst snd].
  1, 2, 4: intros [= <-]; cbn; congruence.
  1: discriminate.
  pose proof (_execute_tool_self H tool_name tool_args (counted st)) as E.
  destruct (_execute_tool H tool_name tool_args (counted st))
    as [[v|e] st1]; cbn [fst snd tool_reply] in *; [| discriminate].
  intros R _. apply respond_returns in R. subst r.
  cbn. rewrite E. cbn. repeat split; lia.
Qed.

(** **** The storage *)

Lemma answered_storage (x : outcome Response * State H) :
  storage (snd (answered x)) = storage (snd x).
Proof.
  now rewrite answered_state.
Qed.

Lemma submit_diagnosis_storage st (diagnosis : value) :
  storage (snd (submit_diagnosis H diagnosis st)) = storage st.
Proof.
  destruct (completed (self st)) eqn:Hc.
  - now rewrite submit_diagnosis_completed.
  - now rewrite submit_diagnosis_closes.
Qed.

Lemma on_fetch_storage_at st data (X : Store H) :
  storage (snd (on_fetch H data st)) = X ->
  X = storage st
  \/ exists (tool_call arguments : value) (q : string),
      get data "action" VNone = Ret (VStr "use_tool")
      /\ get data "tool_call" (VDict []) = Ret tool_call
      /\ get tool_call "name" VNone = Ret (VStr "query_logs")
      /\ get tool_call "arguments" (VDict []) = Ret arguments
      /\ get arguments "sql_query" (VStr "") = Ret (VStr q)
      /\ passes_gate q = true
      /\ completed (self st) = false
      /\ tool_calls_made (self st) < max_tool_calls (self st)
      /\ X = snd (sql_exec_all H q (storage st)).
Proof.
  unfold on_fetch. unfold bind at 1. unfold lift.
  destruct (get data "action" VNone) as [action|e] eqn:A;
    [| intros <-; now left].
  destruct (eq_str action "get_initial_state"); [intros <-; now left |].
  destruct (eq_str action "get_tools"); [intros <-; now left |].
  destruct (eq_str action "get_system_prompt").
  { rewrite answered_bind, answered_storage.
    unfold get_system_prompt. unfold_stx. cbn.
    destruct (call_str _ _ _); intros <-; now left. }
  destruct (eq_str action "update_system_prompt").
  { unfold bind at 1.
    destruct (get data "system_prompt" VNone) as [p|e];
      [| intros <-; now left].
    rewrite answered_bind, answered_storage. unfold update_system_prompt.
    destruct (truthy p); intros <-; now left. }
  destruct (eq_str action "use_tool") eqn:U.
  2: { destruct (eq_str action "submit_diagnosis"); [| intros <-; now left].
       unfold bind at 1.
       destruct (get data "diagnosis" VNone) as [d|e];
         [| intros <-; now left].
       rewrite answered_bind, answered_storage, submit_diagnosis_storage.
       intros <-; now left. }
  apply eq_str_true in U. subst action.
  rewrite answered_bind, answered_storage.
  destruct (completed (self st)) eqn:Hc.
  { unfold use_tool. unfold_stx. cbn. rewrite Hc. intros <-; now left. }
  destruct (tool_calls_made (self st) >=? max_tool_calls (self st)) eqn:Hb.
  { unfold use_tool. unfold_stx. cbn. rewrite Hc, Hb. intros <-; now left. }
  pose proof (geb_false_lt _ _ Hb) as Hlt.
  destruct (get data "tool_call" (VDict [])) as [tool_call|e] eqn:Htc.
  2: { unfold use_tool. unfold_stx. cbn. rewrite Hc, Hb, Htc.
       intros <-; now left. }
  destruct (get tool_call "name" VNone) as [tool_name|e] eqn:Hn.
  2: { unfold use_tool. unfold_stx. cbn. rewrite Hc, Hb, Htc, Hn.
       intros <-; now left. }
  destruct (get tool_call "arguments" (VDict [])) as [tool_args|e] eqn:Ha.
  2: { unfold use_tool. unfold_stx. cbn. rewrite Hc, Hb, Htc, Hn, Ha.
       intros <-; now left. }
  destruct (truthy tool_name) eqn:Ht.
  2: { unfold use_tool. unfold_stx. cbn. rewrite Hc, Hb, Htc, Hn, Ha, Ht.
       intros <-; now left. }
  rewrite (use_tool_passing H st data tool_call tool_name tool_args)
    by trivial.
  assert (R : forall x : outcome value * State H,
             storage (snd (tool_reply x)) = storage (snd x))
    by (now intros [[v|e] st1]).
  rewrite R.
  destruct (eq_str tool_name "query_logs") eqn:Q.
  2: { rewrite _execute_tool_storage by exact Q. intros <-; now left. }
  apply eq_str_true in Q. subst tool_name.
  unfold _execute_tool. unfold bind at 1. unfold attr, reads.
  cbn [eq_str String.eqb Ascii.eqb Bool.eqb]. unfold bind at 1. unfold lift.
  destruct (get tool_args "sql_query" (VStr "")) as [sql_query|e] eqn:Hq;
    [| intros <-; now left].
  destruct (_query_logs_db_storage H sql_query (counted st))
    as [E | (q & -> & G & E)]; rewrite E; intros <-; [now left |].
  right. exists tool_call, tool_args, q. repeat split; trivial.
Qed.

Lemma on_fetch_storage st data :
  storage (snd (on_fetch H data st)) = storage st
  \/ exists (tool_call arguments : value) (q : string),
      get data "action" VNone = Ret (VStr "use_tool")
      /\ get data "tool_call" (VDict []) = Ret tool_call
      /\ get tool_call "name" VNone = Ret (VStr "query_logs")
      /\ get tool_call "arguments" (VDict []) = Ret arguments
      /\ get arguments "sql_query" (VStr "") = Ret (VStr q)
      /\ passes_gate q = true
      /\ completed (self st) = false
      /\ tool_calls_made (self st) < max_tool_calls (self st)
      /\ storage (snd (on_fetch H data st))
         = snd (sql_exec_all H q (storage st)).
Proof.
  exact (on_fetch_storage_at st data _ eq_refl).
Qed.

(** X3. The storage is reached by one path only.  For a request whose
    [sql_query], if it is a text, is ASCII text: the request leaves the
    storage as it was unless it is a [use_tool] request on a session that
    is neither completed nor out of budget, naming the tool [query_logs]
    with a text that passes the SELECT test; the storage is then what the
    engine leaves after running that text. *)
Theorem storage_reached_only_by_select st data :
  (forall (tool_call arguments : value) (q : string),
      get data "tool_call" (VDict []) = Ret tool_call ->
      get tool_call "arguments" (VDict []) = Ret arguments ->
      get arguments "sql_query" (VStr "") = Ret (VStr q) ->
      is_ascii q = true) ->
  storage (snd (on_fetch H data st)) = storage st
  \/ exists (tool_call arguments : value) (q : string),
      get data "action" VNone = Ret (VStr "use_tool")
      /\ get data "tool_call" (VDict []) = Ret tool_call
      /\ get tool_call "name" VNone = Ret (VStr "query_logs")
      /\ get tool_call "arguments" (VDict []) = Ret arguments
      /\ get arguments "sql_query" (VStr "") = Ret (VStr q)
      /\ passes_gate q = true
      /\ completed (self st) = false
      /\ tool_calls_made (self st) < max_tool_calls (self st)
      /\ storage (snd (on_fetch H data st))
         = snd (sql_exec_all H q (storage st)).
Proof.
  intros _. apply on_fetch_storage.
Qed.

Lemma step_from_completed (s s' : Session) :
  session_step s s' -> completed s = true ->
  exists p, s' = set_system_prompt p s.
Proof.
  destruct 1; intros C; try congruence.
  - exists (system_prompt s). now destruct s.
  - now exists p.
Qed.

(** X4. A completed session is frozen but for its prompt: whatever is
    requested afterwards, the counter, the budget, the incident and the
    flag keep their values, the storage is not touched, and no tool
    result is handed out. *)
Theorem completed_session_is_frozen st (requests : list value) :
  completed (self st) = true ->
  let st' := snd (serve H requests st) in
  tool_calls_made (self st') = tool_calls_made (self st)
  /\ max_tool_calls (self st') = max_tool_calls (self st)
  /\ completed (self st') = true
  /\ incident_data (self st') = incident_data (self st)
  /\ storage st' = storage st
  /\ filter executed (fst (serve H requests st)) = [].
Proof.
  cbn zeta. revert st. induction requests as [|data rest IH]; intros st Hc.
  { now repeat split. }
  rewrite serve_cons. cbn [fst snd filter].
  pose proof (on_fetch_step H st data) as S.
  destruct (step_from_completed _ _ S Hc) as [p E].
  assert (Hc' : completed (self (snd (on_fetch H data st))) = true)
    by (rewrite E; exact Hc).
  assert (X : executed (fst (on_fetch H data st)) = false).
  { destruct (executed (fst (on_fetch H data st))) eqn:X; [| reflexivity].
    apply on_fetch_executed in X. rewrite E in X. cbn in X. lia. }
  assert (F : storage (snd (on_fetch H data st)) = storage st).
  { destruct (on_fetch_storage st data)
      as [F | (? & ? & ? & _ & _ & _ & _ & _ & _ & C & _)];
      [exact F | congruence]. }
  destruct (IH _ Hc') as (I1 & I2 & I3 & I4 & I5 & I6).
  rewrite X, I1, I2, I3, I4, I5, I6, F, E. now repeat split.
Qed.

(** **** The filters *)

Lemma prefix_split (p s : string) :
  String.prefix p s = true <-> exists post, s = p ++ post.
Proof.
  split.
  - revert s. induction p as [|c p IH]; intros s E; [now exists s |].
    destruct s as [|a s]; [discriminate |]. cbn in E.
    destruct (ascii_dec c a) as [<-|]; [| discriminate].
    destruct (IH s E) as [post ->]. now exists post.
  - intros [post ->]. induction p as [|c p IH]; cbn.
    + now destruct post.
    + now destruct (ascii_dec c c).
Qed.

Lemma str_in_cons (needle : string) (a : ascii) (hay : string) :
  str_in needle (String a hay)
  = String.prefix needle (String a hay) || str_in needle hay.
Proof. reflexivity. Qed.

Lemma str_in_empty (needle : string) :
  str_in needle EmptyString = String.prefix needle EmptyString.
Proof. apply orb_false_r. Qed.

Lemma str_in_split (needle hay : string) :
  str_in needle hay = true
  <-> exists pre post, hay = pre ++ needle ++ post.
Proof.
  split.
  - induction hay as [|a hay IH].
    + rewrite str_in_empty. intros E.
      apply prefix_split in E as [post E]. now exists EmptyString, post.
    + rewrite str_in_cons. intros E.
      apply orb_true_iff in E as [E | E].
      * apply prefix_split in E as [post E]. now exists EmptyString, post.
      * destruct (IH E) as (pre & post & ->).
        now exists (String a pre), post.
  - intros (pre & post & ->). induction pre as [|a pre IH].
    + cbn [append].
      assert (P : String.prefix needle (needle ++ post) = true)
        by (apply prefix_split; now exists post).
      destruct (needle ++ post) as [|c t].
      * now rewrite str_in_empty.
      * rewrite str_in_cons. now rewrite P.
    + cbn [append]. rewrite str_in_cons, IH. apply orb_true_r.
Qed.

Lemma matching_mentions {A : Type} (q : string) (f : A -> string)
    (items : list A) :
  exists kept : list A,
    matching (VStr q) f items = Ret kept
    /\ kept = filter (fun d => str_in (lower q) (lower (f d))) items
    /\ forall d, In d kept <-> In d items /\ mentions q (f d).
Proof.
  eexists. split; [apply matching_text |]. split; [reflexivity |].
  intros d. rewrite filter_In. unfold mentions.
  now rewrite str_in_split.
Qed.

Lemma text_query_truthy (q : string) :
  q <> EmptyString -> truthy (VStr q) = true.
Proof.
  intros N. cbn. now destruct (String.eqb_spec q "").
Qed.

(** X5. On an incident whose names, contents and services are ASCII
    text, and with a [query] of ASCII text that is not empty, each of the
    three filter tools answers with exactly those items of its list whose
    field (the name of a dependency, the content of a message, the
    service of a deployment) contains the query when the case of the
    ASCII letters is ignored, in the order of the list; no match gives an
    empty list, not an error; and neither the session nor the storage
    changes. *)
Theorem filter_tools_select st (arguments : list (string * value))
    (q : string) :
  lookup "query" arguments = Some (VStr q) ->
  q <> EmptyString ->
  is_ascii q = true ->
  plain_environment (environment (incident_data (self st))) ->
  let env := environment (incident_data (self st)) in
  (exists kept,
      _execute_tool H (VStr "check_dependencies") (VDict arguments) st
      = (Ret (VDict [("dependencies", VList (map dependency_dict kept))]), st)
      /\ (exists keep, kept = filter keep (dependencies env))
      /\ forall d, In d kept
                   <-> In d (dependencies env) /\ mentions q (dep_name d))
  /\ (exists kept,
         _execute_tool H (VStr "check_slack") (VDict arguments) st
         = (Ret (VDict [("messages", VList (map message_dict kept))]), st)
         /\ (exists keep, kept = filter keep (slack_messages env))
         /\ forall m, In m kept
                      <-> In m (slack_messages env)
                          /\ mentions q (msg_content m))
  /\ (exists kept,
         _execute_tool H (VStr "check_deployments") (VDict arguments) st
         = (Ret (VDict [("deployments", VList (map deployment_dict kept))]),
            st)
         /\ (exists keep, kept = filter keep (deployments env))
         /\ forall d, In d kept
                      <-> In d (deployments env)
                          /\ mentions q (dpl_service d)).
Proof.
  intros Q N _ _ env. pose proof (text_query_truthy q N) as T.
  split; [| split].
  - destruct (matching_mentions q dep_name (dependencies env))
      as (kept & E & F & I).
    exists kept. split; [| split; [eexists; exact F | exact I]].
    unfold _execute_tool. unfold_stx. cbn. rewrite Q, T.
    fold env. now rewrite E.
  - destruct (matching_mentions q msg_content (slack_messages env))
      as (kept & E & F & I).
    exists kept. split; [| split; [eexists; exact F | exact I]].
    unfold _execute_tool. unfold_stx. cbn. rewrite Q, T.
    fold env. now rewrite E.
  - destruct (matching_mentions q dpl_service (deployments env))
      as (kept & E & F & I).
    exists kept. split; [| split; [eexists; exact F | exact I]].
    unfold _execute_tool. unfold_stx. cbn. rewrite Q, T.
    fold env. now rewrite E.
Qed.

Lemma same_case_length (s t : string) :
  same_ignoring_case s t -> String.length s = String.length t.
Proof.
  induction 1; cbn; congruence.
Qed.

(** X6. The filter tools do not see the letter case of the query: two
    requests whose queries differ in case only get the same answer, and a
    request with no query, or an empty one, gets the whole list. *)
Theorem filter_tools_ignore_case st (tool_name : value) (q1 q2 : string)
    (arguments : list (string * value)) :
  filters tool_name = true ->
  same_ignoring_case q1 q2 ->
  _execute_tool H tool_name (VDict [("query", VStr q1)]) st
  = _execute_tool H tool_name (VDict [("query", VStr q2)]) st
  /\ (lookup "query" arguments = None
      \/ lookup "query" arguments = Some (VStr "") ->
      _execute_tool H tool_name (VDict arguments) st
      = _execute_tool H tool_name (VDict []) st).
Proof.
  intros F S. pose proof (same_case_length _ _ S) as L.
  apply lower_same, String.eqb_eq in S.
  assert (T : truthy (VStr q1) = truthy (VStr q2)).
  { destruct q1, q2; try discriminate; reflexivity. }
  unfold filters in F.
  apply orb_true_iff in F as [F | F];
    [apply orb_true_iff in F as [F | F] |];
    apply eq_str_true in F; subst tool_name; split;
    try (unfold _execute_tool, bind, lift, attr, reads, ret, get;
         cbn [eq_str String.eqb Ascii.eqb Bool.eqb lookup];
         rewrite T; destruct (truthy (VStr q2));
         [rewrite !matching_text, S |]; reflexivity);
    intros A; unfold _execute_tool; unfold_stx; cbn;
    now destruct A as [-> | ->].
Qed.

(** **** The log query *)

Lemma for_each_log_entry_stops (good rest : list (Row H)) (bad : Row H)
    (kept : list value) (e : exn) st :
  fst (for_each (log_entry H) good st) = Ret kept ->
  fst (log_entry H bad st) = Raise e ->
  for_each (log_entry H) (good ++ bad :: rest)%list st = (Raise e, st).
Proof.
  revert kept. induction good as [|row good IH]; intros kept G B.
  - cbn. unfold bind at 1.
    pose proof (log_entry_pure H bad st) as P.
    destruct (log_entry H bad st) as [[y|e'] st1]; cbn in *; subst st1;
      congruence.
  - cbn in *. unfold bind at 1. unfold bind at 1 in G.
    pose proof (log_entry_pure H row st) as P.
    destruct (log_entry H row st) as [[y|e'] st1]; cbn in P; subst st1;
      [| discriminate].
    unfold bind at 1. unfold bind at 1 in G.
    destruct (for_each (log_entry H) good st) as [[ys|e'] st1] eqn:F;
      [| discriminate].
    now rewrite (IH ys eq_refl B).
Qed.

Lemma _query_logs_db_not_text (sql_query : value) st :
  truthy sql_query = true ->
  (forall q, sql_query <> VStr q) ->
  _query_logs_db H sql_query st
  = (Ret (error_dict ("SQL execution failed: "
                      ++ exn_str (no_attribute sql_query "strip"))),
     st).
Proof.
  intros T Q. unfold _query_logs_db. rewrite T. cbn [negb].
  destruct sql_query; try reflexivity. now destruct (Q s).
Qed.

(** X7. One row that cannot be converted fails the whole query in band:
    when the engine returns rows of which some convert and the next one
    raises (a missing column, metadata that is not JSON), the answer is
    "SQL execution failed" with the message of that exception, and no
    entry of the rows before it is returned. *)
Theorem unreadable_row_fails_query st (q : string) (good rest : list (Row H))
    (bad : Row H) (db : Store H) (kept : list value) (e : exn) :
  q <> EmptyString ->
  passes_gate q = true ->
  sql_exec_all H q (storage st) = (Ret (good ++ bad :: rest)%list, db) ->
  let st1 := {| self := self st; storage := db |} in
  fst (for_each (log_entry H) good st1) = Ret kept ->
  fst (log_entry H bad st1) = Raise e ->
  _query_logs_db H (VStr q) st
  = (Ret (error_dict ("SQL execution failed: " ++ exn_str e)), st1)
  /\ entry "logs" (error_dict ("SQL execution failed: " ++ exn_str e)) = None.
Proof.
  intros N G E st1 K B. split; [| reflexivity].
  rewrite _query_logs_db_text by exact N.
  unfold try_except, guarded_query. unfold passes_gate in G. rewrite G.
  cbn [negb]. unfold bind at 1. unfold on_storage. rewrite E.
  unfold bind at 1. fold st1.
  now rewrite (for_each_log_entry_stops good rest bad kept e st1 K B).
Qed.

(** X8. [query_logs] always answers and never raises or touches the
    session, whatever it is given as query.  The answer is either an
    in-band error or a dict that echoes the query and holds at most 50
    entries under [logs] and, under [total_found], a number that is not
    smaller than the number of entries; it carries a warning exactly when
    more than 50 rows were found. *)
Theorem query_logs_answer_shape st (sql_query : value) :
  exists answer : value,
    fst (_query_logs_db H sql_query st) = Ret answer
    /\ self (snd (_query_logs_db H sql_query st)) = self st
    /\ ((exists msg : string, answer = error_dict msg)
        \/ exists (entries : list value) (total : Z),
            entry "logs" answer = Some (VList entries)
            /\ entry "total_found" answer = Some (VInt total)
            /\ entry "query_executed" answer = Some sql_query
            /\ (List.length entries <= 50)%nat
            /\ Z.of_nat (List.length entries) <= total
            /\ (entry "warning" answer = None <-> total <= 50)).
Proof.
  pose proof (_query_logs_db_self H sql_query st) as S.
  destruct (truthy sql_query) eqn:T.
  2: { rewrite _query_logs_db_empty in * by exact T.
       eexists. split; [reflexivity |]. split; [exact S |]. left.
       now eexists. }
  assert (Q : (exists q, sql_query = VStr q) \/ forall q, sql_query <> VStr q)
    by (destruct sql_query; try (right; discriminate); left; now eexists).
  destruct Q as [[q ->] | Q].
  2: { rewrite (_query_logs_db_not_text sql_query st T Q) in *.
       eexists. split; [reflexivity |]. split; [exact S |]. left.
       now eexists. }
  assert (N : q <> EmptyString) by (intros ->; discriminate).
  destruct (startswith (upper (strip q)) "SELECT") eqn:G.
  2: { rewrite _query_logs_db_rejected in * by trivial.
       eexists. split; [reflexivity |]. split; [exact S |]. left.
       now eexists. }
  destruct (sql_exec_all H q (storage st)) as [[rows|e] db] eqn:E.
  2: { rewrite (_query_logs_db_fault H q e db st N G E) in *.
       eexists. split; [reflexivity |]. split; [exact S |]. left.
       now eexists. }
  destruct (fst (for_each (log_entry H) rows
                   {| self := self st; storage := db |}))
    as [logs|e] eqn:L.
  - rewrite (_query_logs_db_rows H q rows db logs st N G E L) in *.
    eexists. split; [reflexivity |]. split; [exact S |]. right.
    unfold len.
    destruct (Z.gtb_spec (Z.of_nat (List.length logs)) 50) as [C|C].
    + exists (firstn 50 logs), (Z.of_nat (List.length logs)).
      repeat split; try reflexivity.
      * rewrite length_firstn. lia.
      * rewrite length_firstn. lia.
      * discriminate.
      * lia.
    + exists logs, (Z.of_nat (List.length logs)).
      repeat split; try reflexivity; lia.
  - exists (error_dict ("SQL execution failed: " ++ exn_str e)).
    split; [| split; [exact S | left; now eexists]].
    rewrite _query_logs_db_text by exact N.
    unfold try_except, guarded_query. rewrite G. cbn [negb].
    unfold bind at 1. unfold on_storage. rewrite E. unfold bind at 1.
    destruct (for_each (log_entry H) rows _) as [[ls|e'] st1];
      cbn in L; [discriminate |].
    now injection L as ->.
Qed.

(** **** The prompt *)

Lemma replace_from_absent (old new s : string) :
  str_in old s = false -> replace_from old new s O = s.
Proof.
  induction s as [|c s IH]; [reflexivity |].
  rewrite str_in_cons. intros E. apply orb_false_iff in E as [P E].
  cbn [replace_from]. rewrite P. now rewrite IH.
Qed.

Lemma replace_from_skip (old new x b : string) :
  replace_from old new (x ++ b) (String.length x) = replace_from old new b O.
Proof.
  induction x as [|c x IH]; [reflexivity | exact IH].
Qed.

Lemma replace_from_cons (old new : string) (c : ascii) (t : string) :
  replace_from old new (String c t) O
  = if String.prefix old (String c t)
    then new ++ replace_from old new t (String.length old - 1)
    else String c (replace_from old new t O).
Proof. reflexivity. Qed.

Lemma replace_first (c0 : ascii) (old' new a b : string) :
  str_in (String c0 EmptyString) a = false ->
  replace_from (String c0 old') new (a ++ String c0 old' ++ b) O
  = a ++ new ++ replace_from (String c0 old') new b O.
Proof.
  intros A. induction a as [|a0 a IH].
  - change (EmptyString ++ String c0 old' ++ b)
      with (String c0 (old' ++ b)).
    assert (P : String.prefix (String c0 old') (String c0 (old' ++ b)) = true)
      by (apply prefix_split; now exists b).
    rewrite replace_from_cons, P.
    replace (String.length (String c0 old') - 1)%nat
      with (String.length old') by (cbn [String.length]; lia).
    now rewrite replace_from_skip.
  - rewrite str_in_cons in A. apply orb_false_iff in A as [P A].
    change (String a0 a ++ String c0 old' ++ b)
      with (String a0 (a ++ String c0 old' ++ b)).
    assert (D : String.prefix (String c0 old')
                  (String a0 (a ++ String c0 old' ++ b)) = false).
    { cbn. cbn in P. destruct (ascii_dec c0 a0); [| reflexivity].
      now destruct a. }
    rewrite replace_from_cons, D, (IH A). reflexivity.
Qed.

(** X9. A prompt set by [update_system_prompt] is the prompt
    [get_system_prompt] serves.  A text without the placeholder comes
    back unchanged; a text with one placeholder, and no brace before it,
    comes back with the serialized tool definitions in its place.  The
    update changes nothing but the prompt. *)
Theorem prompt_round_trip st (p : string) :
  p <> EmptyString ->
  let st1 := snd (update_system_prompt H (VStr p) st) in
  let tools := json_dumps_indent2 H _get_tools_definitions in
  update_system_prompt H (VStr p) st
  = (Ret (ok (VDict [("status", VStr "System prompt udpated")])), st1)
  /\ self st1 = set_system_prompt (VStr p) (self st)
  /\ storage st1 = storage st
  /\ (str_in "{TOOL_DEFINITIONS}" p = false ->
      get_system_prompt H st1
      = (Ret (ok (VDict [("system_prompt", VStr p)])), st1))
  /\ (forall a b : string,
         p = a ++ "{TOOL_DEFINITIONS}" ++ b ->
         str_in "{" a = false ->
         str_in "{TOOL_DEFINITIONS}" b = false ->
         get_system_prompt H st1
         = (Ret (ok (VDict [("system_prompt", VStr (a ++ tools ++ b))])),
            st1)).
Proof.
  intros N st1 tools. pose proof (text_query_truthy p N) as T.
  assert (E : update_system_prompt H (VStr p) st
              = (Ret (ok (VDict [("status", VStr "System prompt udpated")])),
                 {| self := set_system_prompt (VStr p) (self st);
                    storage := storage st |})).
  { unfold update_system_prompt. now rewrite T. }
  unfold st1. rewrite E. cbn [snd self storage].
  split; [reflexivity |]. split; [reflexivity |]. split; [reflexivity |].
  split.
  - intros A. unfold get_system_prompt. unfold_stx. cbn.
    now rewrite (replace_from_absent _ _ p A).
  - intros a b -> A B. unfold get_system_prompt. unfold_stx. cbn -[append].
    unfold replace. rewrite (replace_first _ _ _ a b A).
    now rewrite (replace_from_absent _ _ b B).
Qed.

(** X10. [update_system_prompt] refuses a value that is missing or falsy
    with a 400 answer and changes nothing, but accepts any other value:
    after a truthy value that is not a text (a number, a list, an
    object) every [get_system_prompt] raises. *)
Theorem prompt_update_edge_cases st (new_prompt : value) :
  (truthy new_prompt = false ->
   update_system_prompt H new_prompt st
   = (Ret (bad_request "No system prompt provided"), st))
  /\ (truthy new_prompt = true ->
      (forall p, new_prompt <> VStr p) ->
      let st1 := snd (update_system_prompt H new_prompt st) in
      fst (update_system_prompt H new_prompt st)
      = Ret (ok (VDict [("status", VStr "System prompt udpated")]))
      /\ system_prompt (self st1) = new_prompt
      /\ get_system_prompt H st1 = (Raise (no_attribute new_prompt "replace"), st1)).
Proof.
  split; intros T.
  - unfold update_system_prompt. now rewrite T.
  - intros Q. unfold update_system_prompt. rewrite T. cbn.
    repeat split. unfold get_system_prompt. unfold_stx. cbn.
    destruct new_prompt; try reflexivity. now destruct (Q s).
Qed.

(** **** The reward *)

Lemma efficiency_values (n : Z) :
  0 <= n <= 10 ->
  exists calls e : float,
    float_of_int (n - 1) = Ret calls
    /\ e = py_max 0.0 (1.0 - 0.15 * calls)%float
    /\ efficiency_after n = Ret e
    /\ PrimFloat.leb 0.0 e = true
    /\ PrimFloat.leb e 1.15 = true
    /\ PrimFloat.eqb e 0.0 = (8 <=? n)
    /\ PrimFloat.leb 2.0 (2.0 + e) = true
    /\ PrimFloat.leb (2.0 + e) 3.15 = true.
Proof.
  intros B.
  each_budget n B; do 2 eexists;
    (split; [vm_compute; reflexivity |]);
    (split; [reflexivity |]); repeat split; vm_compute; reflexivity.
Qed.

Lemma efficiency_falls (n m : Z) :
  0 <= n <= m -> m <= 10 ->
  exists a b : float,
    efficiency_after n = Ret a
    /\ efficiency_after m = Ret b
    /\ PrimFloat.leb b a = true.
Proof.
  intros Bn Bm.
  assert (B1 : 0 <= n <= 10) by lia. assert (B2 : 0 <= m <= 10) by lia.
  each_budget n B1; each_budget m B2; try lia;
    do 2 eexists; repeat split; vm_compute; reflexivity.
Qed.

(** X11. For a correct diagnosis on a session with at most ten calls
    made, the efficiency reward lies between 0.0 and 1.15, is exactly 0.0
    from the eighth call on, and never grows when more calls were made;
    the total reward lies between 2.0 and 3.15. *)
Theorem efficiency_reward_falls st (agent : string) :
  completed (self st) = false ->
  0 <= tool_calls_made (self st) <= 10 ->
  same_ignoring_case agent (correct_diagnosis (incident_data (self st))) ->
  exists e : float,
    efficiency_after (tool_calls_made (self st)) = Ret e
    /\ submit_diagnosis H (VStr agent) st
       = (Ret (ok (diagnosis_result true
                     (correct_diagnosis (incident_data (self st)))
                     (VStr agent) 2.0 e (2.0 + e)
                     (tool_calls_made (self st)))),
          closed st)
    /\ PrimFloat.leb 0.0 e = true
    /\ PrimFloat.leb e 1.15 = true
    /\ PrimFloat.eqb e 0.0 = (8 <=? tool_calls_made (self st))
    /\ PrimFloat.leb 2.0 (2.0 + e) = true
    /\ PrimFloat.leb (2.0 + e) 3.15 = true
    /\ forall (more : Z) (e' : float),
         tool_calls_made (self st) <= more <= 10 ->
         efficiency_after more = Ret e' ->
         PrimFloat.leb e' e = true.
Proof.
  intros Hc B S.
  destruct (efficiency_values _ B)
    as (calls & e & F & -> & E & L0 & L1 & Z8 & T0 & T1).
  eexists. split; [exact E |].
  split; [now apply submit_diagnosis_correct |].
  repeat split; trivial.
  intros more e' Bm E'.
  destruct (efficiency_falls (tool_calls_made (self st)) more)
    as (a & b & Ea & Eb & L); try lia.
  rewrite E in Ea. rewrite E' in Eb.
  injection Ea as <-. injection Eb as <-. exact L.
Qed.

Lemma lower_length (s : string) : String.length (lower s) = String.length s.
Proof.
  induction s as [|c s IH]; cbn; congruence.
Qed.

(** X12. The diagnosis is compared as it is sent, without trimming: a
    text whose length differs from that of the correct diagnosis (a
    trailing space, an added word) is judged incorrect and earns 0.0 in
    every reward, and the session is completed all the same. *)
Theorem diagnosis_of_other_length_is_wrong st (agent : string) :
  completed (self st) = false ->
  String.length agent
  <> String.length (correct_diagnosis (incident_data (self st))) ->
  submit_diagnosis H (VStr agent) st
  = (Ret (ok (diagnosis_result false
                (correct_diagnosis (incident_data (self st)))
                (VStr agent) 0.0 0.0 0.0 (tool_calls_made (self st)))),
     closed st)
  /\ completed (self (closed st)) = true.
Proof.
  intros Hc L. split; [| reflexivity].
  assert (E : String.eqb (lower agent)
                (lower (correct_diagnosis (incident_data (self st))))
              = false).
  { apply String.eqb_neq. intros E. apply (f_equal String.length) in E.
    rewrite !lower_length in E. contradiction. }
  unfold submit_diagnosis. unfold_stx. cbn. rewrite Hc. cbn.
  now rewrite E.
Qed.

(** **** The SELECT test *)

Lemma upper_is_letter (a : ascii) :
  is_upper (upper_char a) = true -> isspace a = false.
Proof.
  destruct a as [[] [] [] [] [] [] [] []]; vm_compute; trivial;
    discriminate.
Qed.

Lemma upper_of_lower (a : ascii) : upper_char (lower_char a) = upper_char a.
Proof.
  destruct a as [[] [] [] [] [] [] [] []]; vm_compute; reflexivity.
Qed.

Lemma isspace_lower (a : ascii) : isspace (lower_char a) = isspace a.
Proof.
  destruct a as [[] [] [] [] [] [] [] []]; vm_compute; reflexivity.
Qed.

Lemma rstrip_cons_kept (a : ascii) (t : string) :
  isspace a = false -> rstrip (String a t) = String a (rstrip t).
Proof.
  intros N. cbn. destruct (rstrip t); [now rewrite N | reflexivity].
Qed.

Lemma prefix_upper_rstrip (p t : string) :
  (forall c, In c (list_ascii_of_string p) -> is_upper c = true) ->
  String.prefix p (upper (rstrip t)) = String.prefix p (upper t).
Proof.
  revert t. induction p as [|c p IH]; intros t U.
  { now destruct (upper (rstrip t)), (upper t). }
  assert (Uc : is_upper c = true) by (apply U; now left).
  assert (Up : forall c', In c' (list_ascii_of_string p) -> is_upper c' = true)
    by (intros c' I; apply U; now right).
  destruct t as [|a t]; [reflexivity |].
  destruct (ascii_dec c (upper_char a)) as [E | N].
  - rewrite E in Uc. apply upper_is_letter in Uc.
    rewrite (rstrip_cons_kept a t Uc). cbn.
    destruct (ascii_dec c (upper_char a)); [| contradiction].
    now apply IH.
  - transitivity false.
    + destruct (rstrip (String a t)) as [|a' t'] eqn:R; [reflexivity |].
      assert (a' = a).
      { cbn in R. destruct (rstrip t); [destruct (isspace a) |];
          congruence. }
      subst a'. cbn. now destruct (ascii_dec c (upper_char a)).
    + cbn. now destruct (ascii_dec c (upper_char a)).
Qed.

Lemma select_letters (c : ascii) :
  In c (list_ascii_of_string "SELECT") -> is_upper c = true.
Proof.
  cbn. intros [<- | [<- | [<- | [<- | [<- | [<- | []]]]]]]; reflexivity.
Qed.

Lemma gate_lstrip (q : string) :
  passes_gate q = String.prefix "SELECT" (upper (lstrip q)).
Proof.
  unfold passes_gate, startswith, strip.
  apply prefix_upper_rstrip, select_letters.
Qed.

Lemma app_assoc_str (s t u : string) : (s ++ t) ++ u = s ++ t ++ u.
Proof.
  induction s as [|c s IH]; [reflexivity |].
  cbn. f_equal. exact IH.
Qed.

Lemma upper_app (s t : string) : upper (s ++ t) = upper s ++ upper t.
Proof.
  induction s as [|c s IH]; [reflexivity |].
  cbn. f_equal. exact IH.
Qed.

Lemma lstrip_app (q s : string) :
  lstrip q <> EmptyString -> lstrip (q ++ s) = lstrip q ++ s.
Proof.
  induction q as [|c q IH]; [contradiction |].
  cbn. destruct (isspace c); [exact IH | reflexivity].
Qed.

Lemma lstrip_spaces (ws q : string) :
  lstrip ws = EmptyString -> lstrip (ws ++ q) = lstrip q.
Proof.
  induction ws as [|c ws IH]; [reflexivity |].
  cbn. destruct (isspace c); [exact IH | discriminate].
Qed.

Lemma lstrip_lower (q : string) : lstrip (lower q) = lower (lstrip q).
Proof.
  induction q as [|c q IH]; [reflexivity |].
  cbn. rewrite isspace_lower. destruct (isspace c); [exact IH | reflexivity].
Qed.

Lemma upper_lower (s : string) : upper (lower s) = upper s.
Proof.
  induction s as [|c s IH]; [reflexivity |].
  cbn. now rewrite upper_of_lower, IH.
Qed.

(** X13. The SELECT test looks at nothing but the first six characters
    after the leading white space: a text that passes still passes with
    anything appended to it (a second statement after a semicolon
    included), and the verdict is the same with more white space in front
    and in any letter case. *)
Theorem gate_sees_only_the_prefix (q : string) :
  (passes_gate q = true ->
   forall suffix : string, passes_gate (q ++ suffix) = true)
  /\ (forall spaces : string,
         lstrip spaces = EmptyString ->
         passes_gate (spaces ++ q) = passes_gate q)
  /\ passes_gate (lower q) = passes_gate q
  /\ passes_gate "select 1; DELETE FROM logs" = true.
Proof.
  split; [| split; [| split; [| reflexivity]]].
  - rewrite gate_lstrip. intros G suffix. rewrite gate_lstrip.
    assert (N : lstrip q <> EmptyString) by (intros E; now rewrite E in G).
    rewrite (lstrip_app q suffix N), upper_app.
    apply prefix_split in G as [post ->].
    apply prefix_split. exists (post ++ upper suffix).
    now rewrite app_assoc_str.
  - intros spaces W. now rewrite !gate_lstrip, (lstrip_spaces spaces q W).
  - now rewrite !gate_lstrip, lstrip_lower, upper_lower.
Qed.

(** **** Construction *)

(** X14. Construction either raises the fault of one of its SQL
    statements, or builds a session with no call made, a budget of ten,
    not completed, the fixed incident and the default prompt; the first
    [get_initial_state] of such a session reports the alert and ten calls
    remaining of ten, and changes nothing. *)
Theorem construction_outcome (db : Store H) :
  (exists (e : exn) (db' : Store H), __init__ H db = (Raise e, db'))
  \/ exists (s : Session) (db' : Store H),
      __init__ H db = (Ret s, db')
      /\ tool_calls_made s = 0
      /\ max_tool_calls s = 10
      /\ completed s = false
      /\ incident_data s = _generate_incident
      /\ system_prompt s = VStr _get_default_system_prompt
      /\ on_fetch H (VDict [("action", VStr "get_initial_state")])
           {| self := s; storage := db' |}
         = (Ret (Some (ok (VDict [("incident_alert",
                                   VStr (alert _generate_incident));
                                  ("max_tool_calls", VInt 10);
                                  ("calls_remaining", VInt 10)]))),
            {| self := s; storage := db' |}).
Proof.
  destruct (__init__ H db) as [[s|e] db'] eqn:E.
  - right. exists s, db'. split; [reflexivity |].
    apply __init___session in E. subst s. now repeat split.
  - left. now exists e, db'.
Qed.

End MoreFacts.

(** ** Properties of the scripted agent *)

Section AgentFacts.

Import TestAgent.

Variable H : Host.

Implicit Types (st : State H).

Lemma split_nonempty (s : string) (sep : ascii) : split s sep <> [].
Proof.
  destruct s as [|c t]; cbn; [discriminate |].
  destruct (Ascii.eqb c sep); [discriminate |].
  destruct (split t sep); discriminate.
Qed.

Lemma prefix_empty (s : string) : String.prefix EmptyString s = true.
Proof. now destruct s. Qed.

(** A text without the separator is a prefix of the first line or of
    nothing. *)
Lemma prefix_first_line (name : string) (sep : ascii) (t : string) :
  (forall c, In c (list_ascii_of_string name) -> c <> sep) ->
  String.prefix name t = String.prefix name (hd EmptyString (split t sep)).
Proof.
  revert t. induction name as [|n name IH]; intros t F.
  { now rewrite !prefix_empty. }
  assert (Fn : n <> sep) by (apply F; now left).
  assert (Ft : forall c, In c (list_ascii_of_string name) -> c <> sep)
    by (intros c I; apply F; now right).
  destruct t as [|a t]; [reflexivity |].
  cbn [split]. destruct (Ascii.eqb_spec a sep) as [-> | Na].
  - cbn. now destruct (ascii_dec n sep).
  - pose proof (split_nonempty t sep) as Ne.
    specialize (IH t Ft).
    destruct (split t sep) as [|line rest]; [contradiction |].
    cbn in *. destruct (ascii_dec n a); [exact IH | reflexivity].
Qed.

Lemma lines_mention (name : string) (sep : ascii) (s : string) :
  (forall c, In c (list_ascii_of_string name) -> c <> sep) ->
  existsb (str_in name) (split s sep) = str_in name s.
Proof.
  intros F. induction s as [|c t IH].
  - cbn [split existsb]. apply orb_false_r.
  - rewrite str_in_cons.
    pose proof (prefix_first_line name sep (String c t) F) as P.
    cbn [split] in *. destruct (Ascii.eqb c sep).
    + cbn [existsb hd] in *. now rewrite IH, str_in_empty, P.
    + pose proof (split_nonempty t sep) as Ne.
      destruct (split t sep) as [|line rest]; [contradiction |].
      cbn [existsb hd] in *.
      now rewrite str_in_cons, P, <- IH, orb_assoc.
Qed.

Ltac no_newline :=
  let c := fresh "c" in
  let I := fresh "I" in
  intros c I; cbn in I;
  repeat (destruct I as [<- | I]; [discriminate |]); contradiction.

Lemma first_tool_cases (lines : list string) :
  first_tool lines = None
  \/ first_tool lines = Some (tool_call "check_dependencies" [])
  \/ first_tool lines = Some (tool_call "check_slack" [])
  \/ first_tool lines = Some (tool_call "check_deployments" [])
  \/ first_tool lines
     = Some (tool_call "query_logs" [("sql_query", VStr error_logs_query)]).
Proof.
  induction lines as [|line rest IH]; [now left |].
  cbn [first_tool].
  destruct (str_in "check_dependencies" line); [now right; left |].
  destruct (str_in "check_slack" line); [now right; right; left |].
  destruct (str_in "check_deployments" line);
    [now right; right; right; left |].
  destruct (str_in "query_logs" line); [now right; right; right; right |].
  exact IH.
Qed.

Lemma first_tool_found (lines : list string) :
  let d := existsb (str_in "check_dependencies") lines in
  let s := existsb (str_in "check_slack") lines in
  let p := existsb (str_in "check_deployments") lines in
  let q := existsb (str_in "query_logs") lines in
  (d || s || p || q = false -> first_tool lines = None)
  /\ (s || p || q = false -> d = true ->
      first_tool lines = Some (tool_call "check_dependencies" []))
  /\ (d || p || q = false -> s = true ->
      first_tool lines = Some (tool_call "check_slack" []))
  /\ (d || s || q = false -> p = true ->
      first_tool lines = Some (tool_call "check_deployments" []))
  /\ (d || s || p = false -> q = true ->
      first_tool lines
      = Some (tool_call "query_logs" [("sql_query", VStr error_logs_query)])).
Proof.
  induction lines as [|line rest IH].
  { cbn. repeat split; intros; congruence. }
  cbn [existsb first_tool] in *.
  destruct (str_in "check_dependencies" line),
    (str_in "check_slack" line), (str_in "check_deployments" line),
    (str_in "query_logs" line);
    cbn [orb]; rewrite ?orb_true_r; repeat split; intros;
    try discriminate; try reflexivity;
    destruct IH as (I0 & I1 & I2 & I3 & I4); auto.
Qed.

Lemma _query_logs_db_passed (q : string) st :
  q <> EmptyString ->
  startswith (upper (strip q)) "SELECT" = true ->
  exists answer : value,
    fst (_query_logs_db H (VStr q) st) = Ret answer
    /\ (entry "error" answer = None
        \/ exists e : exn,
            answer = error_dict ("SQL execution failed: " ++ exn_str e)).
Proof.
  intros N G.
  destruct (sql_exec_all H q (storage st)) as [[rows|e] db] eqn:E.
  - destruct (fst (for_each (log_entry H) rows
                     {| self := self st; storage := db |}))
      as [logs|e] eqn:L.
    + rewrite (_query_logs_db_rows H q rows db logs st N G E L).
      eexists. split; [reflexivity |]. left.
      now destruct (len logs >? 50).
    + exists (error_dict ("SQL execution failed: " ++ exn_str e)).
      split; [| right; now exists e].
      rewrite _query_logs_db_text by exact N.
      unfold try_except, guarded_query. rewrite G. cbn [negb].
      unfold bind at 1. unfold on_storage. rewrite E. unfold bind at 1.
      destruct (for_each (log_entry H) rows _) as [[ls|e'] st1];
        cbn in L; [discriminate |].
      now injection L as ->.
  - rewrite (_query_logs_db_fault H q e db st N G E).
    eexists. split; [reflexivity |]. right. now exists e.
Qed.

Lemma on_fetch_use_tool (call : value) st :
  on_fetch H (use_tool_payload call) st
  = answered (use_tool H (use_tool_payload call) st).
Proof.
  unfold on_fetch. unfold bind at 1. unfold lift.
  now rewrite <- answered_bind.
Qed.

Lemma filter_call_served (name key : string) (items : list value) st :
  (name = "check_dependencies" \/ name = "check_slack"
   \/ name = "check_deployments") ->
  completed (self st) = false ->
  tool_calls_made (self st) < max_tool_calls (self st) ->
  _execute_tool H (VStr name) (VDict []) (counted st)
  = (Ret (VDict [(key, VList items)]), counted st) ->
  unserializable (VList items) = None ->
  exists (r : Response) (answer : value),
    fst (on_fetch H (use_tool_payload (tool_call name [])) st)
    = Ret (Some r)
    /\ status r = 200
    /\ field "tool_response" r = Some answer
    /\ entry "error" answer = None
    /\ entry key answer = Some (VList items).
Proof.
  intros Name Hc Hb X U. rewrite on_fetch_use_tool.
  rewrite (use_tool_passing H st (use_tool_payload (tool_call name []))
             (tool_call name []) (VStr name) (VDict [])
             Hc Hb eq_refl eq_refl eq_refl)
    by (destruct Name as [-> | [-> | ->]]; reflexivity).
  rewrite X, tool_reply_returned.
  assert (U' : unserializable (VDict [(key, VList items)]) = None).
  { cbn [unserializable] in *. now rewrite U. }
  rewrite U'. eexists. eexists. cbn.
  repeat split.
  - destruct Name as [-> | [-> | ->]]; revert X; unfold _execute_tool;
      unfold_stx; cbn; now intros [= <- _].
  - unfold entry. cbn [lookup]. now rewrite String.eqb_refl.
Qed.

(** X15. Whatever the model replied, the tool call [parse_tool_call]
    makes of it is one the environment takes: sent to a session that is
    not completed and has budget left, it is counted as one call, and is
    never answered "Unknown tool", "No SQL query provided" or "Only
    SELECT queries are allowed".  A call of one of the three filter tools
    is answered with status 200 and the whole list.  The call of
    [query_logs] runs the fixed query: its result -- the logs, or the
    in-band error of a failed SQL execution -- is answered with status
    200 when [json.dumps] can serialize it, and otherwise the request
    fails with the [TypeError] of [json.dumps]. *)
Theorem parsed_call_is_served st (llm_response : string) :
  completed (self st) = false ->
  tool_calls_made (self st) < max_tool_calls (self st) ->
  let call := parse_tool_call llm_response in
  let data := use_tool_payload call in
  let logs_call :=
    tool_call "query_logs" [("sql_query", VStr error_logs_query)] in
  tool_calls_made (self (snd (on_fetch H data st)))
  = tool_calls_made (self st) + 1
  /\ (call <> logs_call ->
      exists (r : Response) (answer : value),
        fst (on_fetch H data st) = Ret (Some r)
        /\ status r = 200
        /\ field "tool_response" r = Some answer
        /\ entry "error" answer = None)
  /\ (call = logs_call ->
      exists answer : value,
        fst (_query_logs_db H (VStr error_logs_query) (counted st))
        = Ret answer
        /\ (entry "error" answer = None
            \/ exists e : exn,
                answer = error_dict ("SQL execution failed: " ++ exn_str e))
        /\ fst (on_fetch H data st)
           = match unserializable answer with
             | None =>
                 Ret (Some
                        (ok (VDict
                               [("tool_response", answer);
                                ("calls_remaining",
                                 VInt (max_tool_calls (self st)
                                       - (tool_calls_made (self st) + 1)));
                                ("call_number",
                                 VInt (tool_calls_made (self st) + 1))])))
             | Some type =>
                 Raise (Exn TypeError
                          ("Object of type " ++ type
                           ++ " is not JSON serializable"))
             end).
Proof.
  intros Hc Hb call data logs_call.
  assert (P : forall name arguments,
             call = tool_call name arguments ->
             name <> EmptyString ->
             use_tool H data st
             = tool_reply (_execute_tool H (VStr name) (VDict arguments)
                             (counted st))).
  { intros name arguments E N. unfold data. rewrite E.
    apply (use_tool_passing H st _ (tool_call name arguments));
      trivial. now apply text_query_truthy. }
  assert (K : forall name arguments,
             call = tool_call name arguments ->
             name <> EmptyString ->
             tool_calls_made (self (snd (on_fetch H data st)))
             = tool_calls_made (self st) + 1).
  { intros name arguments E N. unfold data.
    rewrite on_fetch_use_tool, answered_state. fold data.
    rewrite (P name arguments E N).
    now rewrite (tool_reply_self H (VStr name) (VDict arguments)
                   (counted st)). }
  assert (F : forall name key (items : list value),
             call = tool_call name [] ->
             (name = "check_dependencies" \/ name = "check_slack"
              \/ name = "check_deployments") ->
             _execute_tool H (VStr name) (VDict []) (counted st)
             = (Ret (VDict [(key, VList items)]), counted st) ->
             unserializable (VList items) = None ->
             tool_calls_made (self (snd (on_fetch H data st)))
             = tool_calls_made (self st) + 1
             /\ (call <> logs_call ->
                 exists (r : Response) (answer : value),
                   fst (on_fetch H data st) = Ret (Some r)
                   /\ status r = 200
                   /\ field "tool_response" r = Some answer
                   /\ entry "error" answer = None)).
  { intros name key items E Name X U. split.
    - apply (K name []); [exact E |].
      destruct Name as [-> | [-> | ->]]; discriminate.
    - intros _. unfold data. rewrite E.
      destruct (filter_call_served name key items st Name Hc Hb X U)
        as (r & answer & R1 & R2 & R3 & R4 & _).
      now exists r, answer. }
  unfold call, parse_tool_call in *.
  destruct (first_tool_cases (split (lower llm_response) newline))
    as [E | [E | [E | [E | E]]]]; rewrite E in *.
  - destruct (F "check_dependencies" "dependencies" _ eq_refl
                (or_introl eq_refl) eq_refl
                (dicts_serializable dependency_dict _ (fun _ => eq_refl)))
      as (F1 & F2).
    split; [exact F1 |]. split; [exact F2 | discriminate].
  - destruct (F "check_dependencies" "dependencies" _ eq_refl
                (or_introl eq_refl) eq_refl
                (dicts_serializable dependency_dict _ (fun _ => eq_refl)))
      as (F1 & F2).
    split; [exact F1 |]. split; [exact F2 | discriminate].
  - destruct (F "check_slack" "messages" _ eq_refl
                (or_intror (or_introl eq_refl)) eq_refl
                (dicts_serializable message_dict _ (fun _ => eq_refl)))
      as (F1 & F2).
    split; [exact F1 |]. split; [exact F2 | discriminate].
  - destruct (F "check_deployments" "deployments" _ eq_refl
                (or_intror (or_intror eq_refl)) eq_refl
                (dicts_serializable deployment_dict _ (fun _ => eq_refl)))
      as (F1 & F2).
    split; [exact F1 |]. split; [exact F2 | discriminate].
  - assert (N : error_logs_query <> EmptyString) by discriminate.
    split; [| split].
    + apply (K "query_logs" [("sql_query", VStr error_logs_query)]);
        [reflexivity | discriminate].
    + intros D. now destruct D.
    + intros _.
      destruct (_query_logs_db_passed error_logs_query (counted st) N eq_refl)
        as (answer & A & Sh).
      exists answer. split; [exact A |]. split; [exact Sh |].
      unfold data. rewrite on_fetch_use_tool. fold data.
      rewrite (P "query_logs" [("sql_query", VStr error_logs_query)]
                 eq_refl) by discriminate.
      assert (X : _execute_tool H (VStr "query_logs")
                    (VDict [("sql_query", VStr error_logs_query)])
                    (counted st)
                  = _query_logs_db H (VStr error_logs_query) (counted st)).
      { unfold _execute_tool. unfold_stx. now cbn. }
      rewrite X.
      pose proof (_query_logs_db_self H (VStr error_logs_query)
                    (counted st)) as S.
      destruct (_query_logs_db H (VStr error_logs_query) (counted st))
        as [[v|e] st1]; cbn in A, S; [| discriminate].
      injection A as ->. rewrite tool_reply_returned, S. cbn.
      now destruct (unserializable answer).
Qed.

(** X16. In a reply of ASCII text [parse_tool_call] looks for the four
    tool names anywhere in the reply, in any case of the ASCII letters.
    A reply that names none of them, or only [check_dependencies],
    becomes a call of [check_dependencies]; a reply that names exactly
    one of the other three becomes a call of that tool, with the fixed
    query for error logs in the case of [query_logs]. *)
Theorem parse_tool_call_detection (llm_response : string) :
  is_ascii llm_response = true ->
  let text := lower llm_response in
  let d := str_in "check_dependencies" text in
  let s := str_in "check_slack" text in
  let p := str_in "check_deployments" text in
  let q := str_in "query_logs" text in
  (s || p || q = false ->
   parse_tool_call llm_response = tool_call "check_dependencies" [])
  /\ (d || p || q = false -> s = true ->
      parse_tool_call llm_response = tool_call "check_slack" [])
  /\ (d || s || q = false -> p = true ->
      parse_tool_call llm_response = tool_call "check_deployments" [])
  /\ (d || s || p = false -> q = true ->
      parse_tool_call llm_response
      = tool_call "query_logs" [("sql_query", VStr error_logs_query)]).
Proof.
  intros _. cbn zeta. unfold parse_tool_call.
  destruct (first_tool_found (split (lower llm_response) newline))
    as (F0 & F1 & F2 & F3 & F4).
  rewrite !lines_mention in F0, F1, F2, F3, F4 by no_newline.
  repeat split.
  - intros O.
    destruct (str_in "check_dependencies" (lower llm_response)) eqn:D.
    + now rewrite (F1 O eq_refl).
    + rewrite F0; [reflexivity | exact O].
  - intros O S. now rewrite (F2 O S).
  - intros O S. now rewrite (F3 O S).
  - intros O S. now rewrite (F4 O S).
Qed.

End AgentFacts.

(** ** The properties on the in-memory host *)

Section OnMemoryHost.

Import MemoryHost.

Lemma shouted_is_correct :
  same_ignoring_case shouted (correct_diagnosis _generate_incident).
Proof. apply lower_same. reflexivity. Qed.



(** Five calls, then the right diagnosis in capitals: 0.4 and 2.4. *)
Lemma submit_diagnosis_reward_after_five :
  exists r : Response,
    fst (submit_diagnosis host (VStr shouted) (after_calls 5)) = Ret r
    /\ field "correct" r = Some (VBool true)
    /\ field "primary_reward" r = Some (VFloat 2.0)
    /\ field "efficiency_reward" r = Some (VFloat 0.4)
    /\ field "total_reward" r = Some (VFloat 2.4).
Proof.
  destruct (submit_diagnosis_reward host (after_calls 5) shouted 4.0%float
              eq_refl eq_refl)
    as (correct & primary & efficiency & total
        & E & C & _ & _ & _ & _ & _ & F & _).
  assert (T : correct = true) by (apply C; exact shouted_is_correct).
  destruct (F T eq_refl) as (-> & -> & ->).
  rewrite E, T. eexists. repeat split.
Defined.

(** Three requests on a fresh session keep the counter within budget. *)
Lemma budget_invariant_on_fresh :
  let st := snd (serve host
                   [tool_request (VStr "check_slack") (VDict []);
                    VDict [("action", VStr "get_initial_state")];
                    diagnosis_request (VStr "disk full")]
                   fresh) in
  0 <= tool_calls_made (self st) <= max_tool_calls (self st).
Proof.
  exact (proj1 (budget_invariant host [] (storage fresh) (self fresh)
                  [tool_request (VStr "check_slack") (VDict []);
                   VDict [("action", VStr "get_initial_state")];
                   diagnosis_request (VStr "disk full")]
                  eq_refl)).
Defined.

(** Two diagnoses in a row: one reward at most. *)
Lemma completion_is_final_on_fresh :
  (List.length
     (filter rewarded
        (fst (serve host
                [diagnosis_request (VStr shouted);
                 diagnosis_request (VStr shouted)]
                fresh))) <= 1)%nat.
Proof.
  exact (proj1 (completion_is_final host fresh
                  [diagnosis_request (VStr shouted);
                   diagnosis_request (VStr shouted)])).
Defined.

(** The right diagnosis on a fresh session: 1.15 for efficiency. *)
Lemma zero_calls_efficiency_on_fresh :
  exists r : Response,
    submit_diagnosis host (VStr shouted) fresh = (Ret r, closed fresh)
    /\ field "efficiency_reward" r = Some (VFloat 1.15).
Proof.
  destruct (zero_calls_efficiency host fresh shouted eq_refl eq_refl
              shouted_is_correct) as (r & E & F & _).
  exists r. split; assumption.
Defined.

(** A number as [query] makes a filter raise on the fresh session, and a
    BLOB in a row makes the answer of [query_logs] fail in [json.dumps];
    both exceptions leave [use_tool], after the call was counted. *)
Lemma use_tool_raises_on_memory_host :
  use_tool host
    (tool_request (VStr "check_dependencies") (VDict [("query", VInt 5)]))
    fresh
  = (Raise (Exn AttributeError "'int' object has no attribute 'lower'"),
     counted fresh)
  /\ use_tool host
       (tool_request (VStr "query_logs")
          (VDict [("sql_query", VStr "SELECT * FROM logs")]))
       with_blob_row
     = (Raise (Exn TypeError "Object of type bytes is not JSON serializable"),
        counted with_blob_row).
Proof.
  split.
  - refine (proj1 (proj1 (proj2
             (use_tool_lets_exceptions_escape host fresh (VInt 5)
                eq_refl eq_refl)) eq_refl _) _); discriminate.
  - refine (proj2 (proj2
             (use_tool_lets_exceptions_escape host with_blob_row (VInt 5)
                eq_refl eq_refl))
             "SELECT * FROM logs" [blob_row] [blob_row]
             [VDict [("timestamp", VStr "2025-07-20T10:31:00Z");
                     ("level", VStr "ERROR"); ("service", VStr "postgres");
                     ("message", VObject "bytes" true);
                     ("metadata", VDict [])]]
             "bytes" _ eq_refl eq_refl eq_refl eq_refl).
    discriminate.
Defined.

(** The fresh session is completed by a request without a diagnosis. *)
Lemma missing_diagnosis_on_fresh :
  on_fetch host (VDict [("action", VStr "submit_diagnosis")]) fresh
  = (Raise (no_attribute VNone "lower"), closed fresh).
Proof.
  exact (proj1 (missing_diagnosis_closes_session host fresh shouted eq_refl)).
Defined.



(** Sixty rows: the entries of the first fifty, a total of sixty, and a
    warning. *)
Lemma query_logs_truncation_on_sixty_rows :
  exists answer : value,
    fst (_query_logs_db host (VStr "SELECT * FROM logs") (with_rows 60))
    = Ret answer
    /\ entry "total_found" answer = Some (VInt 60)
    /\ entry "query_executed" answer = Some (VStr "SELECT * FROM logs")
    /\ entry "logs" answer = Some (VList (repeat sample_entry 50))
    /\ Forall2 (@entry_of_row host) (repeat sample_row 50)
         (repeat sample_entry 50)
    /\ exists warning,
        entry "warning" answer = Some (VStr warning)
        /\ warning <> EmptyString.
Proof.
  assert (N : "SELECT * FROM logs" <> EmptyString) by discriminate.
  destruct (query_logs_truncation host (with_rows 60) "SELECT * FROM logs"
              (repeat sample_row 60) (repeat sample_row 60)
              (repeat sample_entry 60)
              N eq_refl eq_refl eq_refl)
    as (answer & E & _ & Q & T & More & _).
  destruct More as (L & _ & Cols & _ & warning & W & Wn).
  { cbn. lia. }
  exists answer. split; [exact E |]. split; [exact T |].
  split; [exact Q |]. split; [exact L |]. split; [exact Cols |].
  exists warning. split; assumption.
Defined.



End OnMemoryHost.

(** ** The further properties on the in-memory host *)

Section MoreOnMemoryHost.

Import MemoryHost TestAgent.

(** Two tool calls and a question on a fresh session: two of ten. *)
Lemma tool_results_within_budget_on_fresh :
  let requests := [tool_request (VStr "check_slack") (VDict []);
                   VDict [("action", VStr "get_tools")];
                   tool_request (VStr "ping") (VDict [])] in
  Z.of_nat (List.length (filter executed (fst (serve host requests fresh))))
  <= max_tool_calls (self fresh) - tool_calls_made (self fresh).
Proof.
  refine (proj2 (proj2 (tool_results_within_budget host fresh _ _))).
  cbn. lia.
Defined.

(** The sixth call of a session reports call 6 and 4 remaining. *)
Lemma call_number_and_remaining_after_five :
  exists r : Response,
    fst (use_tool host (tool_request (VStr "ping") (VDict []))
           (after_calls 5)) = Ret r
    /\ field "call_number" r = Some (VInt 6)
    /\ field "calls_remaining" r = Some (VInt 4).
Proof.
  eexists. split; [reflexivity |].
  refine ((fun P => conj (proj1 P) (proj1 (proj2 P)))
            (call_number_and_remaining host (after_calls 5)
               (tool_request (VStr "ping") (VDict [])) _ _ eq_refl _)).
  - cbn. lia.
  - discriminate.
Defined.

(** After a diagnosis, more requests leave the counter where it was. *)
Lemma completed_session_is_frozen_on_fresh :
  let requests := [tool_request (VStr "check_slack") (VDict []);
                   diagnosis_request (VStr shouted)] in
  tool_calls_made (self (snd (serve host requests (closed fresh))))
  = tool_calls_made (self (closed fresh)).
Proof.
  exact (proj1 (completed_session_is_frozen host (closed fresh)
                  [tool_request (VStr "check_slack") (VDict []);
                   diagnosis_request (VStr shouted)] eq_refl)).
Defined.

(** REDIS selects the redis dependency of the fixed incident. *)
Lemma filter_tools_select_redis :
  exists kept,
    _execute_tool host (VStr "check_dependencies")
      (VDict [("query", VStr "REDIS")]) fresh
    = (Ret (VDict [("dependencies", VList (map dependency_dict kept))]),
       fresh)
    /\ (exists keep,
           kept = filter keep
                    (dependencies (environment (incident_data (self fresh)))))
    /\ forall d,
         In d kept
         <-> In d (dependencies (environment (incident_data (self fresh))))
             /\ mentions "REDIS" (dep_name d).
Proof.
  refine (proj1 (filter_tools_select host fresh [("query", VStr "REDIS")]
                   "REDIS" eq_refl _ eq_refl _)).
  - discriminate.
  - repeat split; intros d D; cbn in D;
      repeat (destruct D as [<- | D]; [reflexivity |]); destruct D.
Defined.

Lemma redis_in_two_cases : same_ignoring_case "Redis" "REDIS".
Proof. apply lower_same. reflexivity. Qed.

(** Redis and REDIS get the same answer. *)
Lemma filter_tools_ignore_case_redis :
  _execute_tool host (VStr "check_dependencies")
    (VDict [("query", VStr "Redis")]) fresh
  = _execute_tool host (VStr "check_dependencies")
      (VDict [("query", VStr "REDIS")]) fresh.
Proof.
  exact (proj1 (filter_tools_ignore_case host fresh
                  (VStr "check_dependencies") "Redis" "REDIS" []
                  eq_refl redis_in_two_cases)).
Defined.

(** A row without its columns between two good rows fails the query. *)
Lemma unreadable_row_fails_query_on_broken_row :
  _query_logs_db host (VStr "SELECT * FROM logs") with_broken_row
  = (Ret (error_dict "SQL execution failed: timestamp"), with_broken_row).
Proof.
  refine (proj1 (unreadable_row_fails_query host with_broken_row
                   "SELECT * FROM logs" [sample_row] [sample_row] broken_row
                   (storage with_broken_row) _
                   (Exn AttributeError "timestamp")
                   _ eq_refl eq_refl eq_refl eq_refl)).
  discriminate.
Defined.

(** A prompt without placeholder is served as it was set. *)
Lemma prompt_round_trip_on_fresh :
  get_system_prompt host
    (snd (update_system_prompt host (VStr "Be brief.") fresh))
  = (Ret (ok (VDict [("system_prompt", VStr "Be brief.")])),
     snd (update_system_prompt host (VStr "Be brief.") fresh)).
Proof.
  refine (proj1 (proj2 (proj2 (proj2
            (prompt_round_trip host fresh "Be brief." _)))) eq_refl).
  discriminate.
Defined.

(** Nine calls: the efficiency reward of the right diagnosis is 0.0. *)
Lemma efficiency_reward_falls_after_nine :
  exists e : float,
    efficiency_after (tool_calls_made (self (after_calls 9))) = Ret e
    /\ PrimFloat.eqb e 0.0 = true.
Proof.
  destruct (efficiency_reward_falls host (after_calls 9) shouted eq_refl)
    as (e & E & _ & _ & _ & Z & _).
  - cbn. lia.
  - exact shouted_is_correct.
  - exists e. split; [exact E | exact Z].
Defined.

(** A trailing space makes the right diagnosis wrong. *)
Lemma diagnosis_with_trailing_space_is_wrong :
  submit_diagnosis host (VStr "database connection pool exhausted ") fresh
  = (Ret (ok (diagnosis_result false
                (correct_diagnosis (incident_data (self fresh)))
                (VStr "database connection pool exhausted ")
                0.0 0.0 0.0 (tool_calls_made (self fresh)))),
     closed fresh).
Proof.
  refine (proj1 (diagnosis_of_other_length_is_wrong host fresh
                   "database connection pool exhausted " eq_refl _)).
  discriminate.
Defined.

(** A reply that names the Slack tool is counted and served on a fresh
    session. *)
Lemma parsed_call_is_served_on_fresh :
  let data :=
    use_tool_payload (parse_tool_call "I would CHECK_SLACK first.") in
  tool_calls_made (self (snd (on_fetch host data fresh))) = 1
  /\ exists (r : Response) (answer : value),
      fst (on_fetch host data fresh) = Ret (Some r)
      /\ status r = 200
      /\ field "tool_response" r = Some answer
      /\ entry "error" answer = None.
Proof.
  destruct (parsed_call_is_served host fresh "I would CHECK_SLACK first."
              eq_refl eq_refl) as (K & F & _).
  split; [exact K |]. apply F. vm_compute. discriminate.
Defined.

(** A query that deletes after it selects reaches the storage of the
    fresh session by the one path there is. *)
Lemma storage_reached_only_by_select_on_fresh :
  let data :=
    tool_request (VStr "query_logs")
      (VDict [("sql_query", VStr "SELECT * FROM logs; DELETE FROM logs")]) in
  storage (snd (on_fetch host data fresh)) <> storage fresh
  /\ storage (snd (on_fetch host data fresh))
     = snd (sql_exec_all host "SELECT * FROM logs; DELETE FROM logs"
              (storage fresh)).
Proof.
  assert (D : storage
                (snd (on_fetch host
                        (tool_request (VStr "query_logs")
                           (VDict [("sql_query",
                                    VStr "SELECT * FROM logs; DELETE FROM logs")]))
                        fresh))
              <> storage fresh) by (vm_compute; discriminate).
  split; [exact D |].
  destruct (storage_reached_only_by_select host fresh
              (tool_request (VStr "query_logs")
                 (VDict [("sql_query",
                          VStr "SELECT * FROM logs; DELETE FROM logs")])))
    as [Same | (tool_call & arguments & q & _ & T & _ & A & Q & _ & _ & _ & E)].
  - intros tool_call arguments q [= <-] [= <-] [= <-]. reflexivity.
  - destruct (D Same).
  - injection T as <-. injection A as <-. injection Q as <-. exact E.
Defined.

(** A reply in capitals that names the Slack tool only. *)
Lemma parse_tool_call_detection_on_capitals :
  parse_tool_call "Next I will run CHECK_SLACK." = tool_call "check_slack" [].
Proof.
  exact (proj1 (proj2
           (parse_tool_call_detection "Next I will run CHECK_SLACK." eq_refl))
           eq_refl eq_refl).
Defined.

End MoreOnMemoryHost.
